(** * The vue-zheye store (src/store/index.ts), second version with load tracking

    A shallow embedding of the Vuex store: its state record, the mutations,
    the actions built on [asyncAndCommit], and the getters, followed by the
    properties of the store that the specification lists.

    JavaScript values that travel through the store (response envelopes,
    entities, action arguments) are untyped at run time, so they are modelled
    by a small universe of JSON values extended with [undefined].  Objects are
    insertion-ordered dictionaries.  The HTTP transport is an oracle that
    answers each request from the history of earlier requests. *)

From Stdlib Require Import String Ascii List ZArith Bool Lia DecimalString.
Import ListNotations.
Open Scope string_scope.

(** ** Insertion-ordered string-keyed dictionaries (plain JavaScript objects)

    A dictionary is a list of bindings.  The first binding of a key is the
    live one; later bindings of the same key are shadowed and invisible to
    every operation, so each list denotes one object.  Keys that look like
    array indices, which JavaScript enumerates first, get no special
    treatment, and neither do keys that mean something of their own when
    written (such as __proto__, or the keys the reactivity layer of the
    framework keeps for itself): entity ids are opaque strings.  What a read
    finds beyond the own properties is in [inherited] below. *)
Module Dict.

Section Ops.
Context {V : Type}.

Definition t := list (string * V).

Definition empty : t := [].

(* o[k], [None] when k is not an own property *)
Fixpoint lookup (k : string) (o : t) : option V :=
  match o with
  | [] => None
  | (k', v) :: r => if String.eqb k k' then Some v else lookup k r
  end.

(* o[k] = v : overwrite in place, or append a new property *)
Fixpoint set (k : string) (v : V) (o : t) : t :=
  match o with
  | [] => [(k, v)]
  | (k', v') :: r =>
      if String.eqb k k' then (k, v) :: r else (k', v') :: set k v r
  end.

(* delete o[k] *)
Fixpoint delete (k : string) (o : t) : t :=
  match o with
  | [] => []
  | (k', v') :: r =>
      if String.eqb k k' then delete k r else (k', v') :: delete k r
  end.

(* Object.keys(o) *)
Fixpoint keys (o : t) : list string :=
  match o with
  | [] => []
  | (k, _) :: r => k :: remove string_dec k (keys r)
  end.

(* Object.keys(o).map(k => [k, o[k]]), the own enumerable properties *)
Definition entries (o : t) : list (string * V) :=
  flat_map (fun k => match lookup k o with
                     | Some v => [(k, v)]
                     | None => []
                     end) (keys o).

(* { ...a, ...b } *)
Definition merge (a b : t) : t :=
  fold_left (fun acc kv => set (fst kv) (snd kv) acc) (entries b) a.

End Ops.

Arguments t : clear implicits.

End Dict.

(** ** JavaScript values *)

#[local] Set Warnings "-register-all".

Inductive json : Type :=
| JUndefined
| JNull
| JBool (b : bool)
| JNum (n : Z)
| JStr (s : string)
| JArr (l : list json)
| JObj (o : list (string * json))
| JBuiltin (name : string).   (* a built-in that is not data: see [inherited] *)

(* ToBoolean *)
Definition truthy (v : json) : bool :=
  match v with
  | JUndefined | JNull => false
  | JBool b => b
  | JNum n => negb (Z.eqb n 0)
  | JStr s => negb (String.eqb s "")
  | JArr _ | JObj _ | JBuiltin _ => true
  end.

Definition string_of_Z (n : Z) : string := NilZero.string_of_int (Z.to_int n).
Definition string_of_nat (n : nat) : string := NilZero.string_of_uint (Nat.to_uint n).

(* ToString, as used by template literals and by property keys.  Numbers are
   integers here (the API's numeric fields are counters and status codes). *)
Fixpoint toString (v : json) : string :=
  match v with
  | JUndefined => "undefined"
  | JNull => "null"
  | JBool true => "true"
  | JBool false => "false"
  | JNum n => string_of_Z n
  | JStr s => s
  | JArr l =>
      String.concat ","
        (map (fun x => match x with
                       | JUndefined | JNull => ""
                       | _ => toString x
                       end) l)
  | JObj _ => "[object Object]"
  | JBuiltin name =>
      if String.eqb name "Object.prototype" then "[object Object]"
      else "function " ++ name ++ "() { [native code] }"
  end.

(* Errors a caller of the store can observe: the rejection reason of a failed
   request, passed on as it is, or a TypeError raised while reading a property
   of undefined or null. *)
Inductive exn : Type :=
| AxiosError (reason : json)
| TypeError.

Inductive result (A : Type) : Type :=
| Ok (a : A)
| Throw (e : exn).
Arguments Ok {A} a.
Arguments Throw {A} e.

Definition bind {A B} (r : result A) (f : A -> result B) : result B :=
  match r with
  | Ok a => f a
  | Throw e => Throw e
  end.

Notation "x <- c1 ;; c2" := (bind c1 (fun x => c2))
  (at level 61, c1 at next level, right associativity).

(* v[k] on a value that is known not to be undefined or null.  The store only
   reads the properties data, list, _id, token, content, column, page, size,
   id, payload and extraData; none of them exists on a primitive, an array or
   a built-in, and none is inherited from Object.prototype. *)
Definition member (v : json) (k : string) : json :=
  match v with
  | JObj o => match Dict.lookup k o with
              | Some x => x
              | None => JUndefined
              end
  | _ => JUndefined
  end.

(* v.k in general: reading a property of undefined or null throws. *)
Definition getProp (v : json) (k : string) : result json :=
  match v with
  | JUndefined | JNull => Throw TypeError
  | _ => Ok (member v k)
  end.

(* The functions every plain object inherits from Object.prototype. *)
Definition prototype_functions : list string :=
  ["toString"; "toLocaleString"; "valueOf"; "hasOwnProperty"; "isPrototypeOf";
   "propertyIsEnumerable"; "__defineGetter__"; "__defineSetter__";
   "__lookupGetter__"; "__lookupSetter__"].

(* What reading the key k finds on a plain object that has no own property k:
   the members of Object.prototype, and undefined for every other key. *)
Definition inherited (k : string) : json :=
  if String.eqb k "constructor" then JBuiltin "Object"
  else if String.eqb k "__proto__" then JBuiltin "Object.prototype"
  else if existsb (String.eqb k) prototype_functions then JBuiltin k
  else JUndefined.

(* o[k] on a cache, with a key that comes from outside: the own property if
   there is one, what the object inherits otherwise. *)
Definition get (k : string) (o : Dict.t json) : json :=
  match Dict.lookup k o with
  | Some v => v
  | None => inherited k
  end.

Fixpoint chars (s : string) : list json :=
  match s with
  | EmptyString => []
  | String c r => JStr (String c EmptyString) :: chars r
  end.

Definition indexed (l : list json) : list (string * json) :=
  combine (map string_of_nat (seq 0 (length l))) l.

(* The properties copied by an object spread [...v]. *)
Definition ownEntries (v : json) : list (string * json) :=
  match v with
  | JObj o => Dict.entries o
  | JArr l => indexed l
  | JStr s => indexed (chars s)
  | _ => []
  end.

(* v === s for a string s; Array.prototype.includes agrees with it on strings *)
Definition strict_eq_str (v : json) (s : string) : bool :=
  match v with
  | JStr s' => String.eqb s' s
  | _ => false
  end.

Definition includes (s : string) (l : list json) : bool :=
  existsb (fun x => strict_eq_str x s) l.

(** ** src/helper (not part of the sources at hand) *)

(** Modelled from the spec: [arrToObj] of src/helper, which is imported by the
    store but missing from the sources.  The spec describes the caches as
    mappings from id to entity whose keys equal the entity's id, filled from
    the list of a response; so the helper stores each element of the array
    under the key given by its [_id].  Only an array can be walked, and an
    element that is undefined or null has no [_id] to read. *)
Fixpoint arrToObj_from (acc : Dict.t json) (l : list json) : result (Dict.t json) :=
  match l with
  | [] => Ok acc
  | x :: r =>
      id <- getProp x "_id" ;;
      arrToObj_from (Dict.set (toString id) x acc) r
  end.

Definition arrToObj (arr : json) : result (Dict.t json) :=
  match arr with
  | JArr l => arrToObj_from Dict.empty l
  | _ => Throw TypeError
  end.

(** Modelled from the spec: [objToArr] of src/helper, missing from the sources
    as well.  The spec has it turn a cache into an ordered list, in the
    iteration order of the object's keys. *)
Definition objToArr (o : Dict.t json) : list json :=
  map (fun k => get k o) (Dict.keys o).

(** ** The store state: [GlobalDataProps] *)

Record ColumnsState : Type := {
  columns_data : Dict.t json;
  isLoaded : bool
}.

Record PostsState : Type := {
  posts_data : Dict.t json;
  loadedColumns : list json
}.

Record GlobalDataProps : Type := {
  token : json;
  error : json;
  loading : json;
  columns : ColumnsState;
  posts : PostsState;
  user : json
}.

(** ** What surrounds the store

    Besides the state, mutations touch the browser's [localStorage] and the
    default headers of the HTTP client.  Two logs record what happened: the
    requests handed to the HTTP client and the mutations that ran to
    completion (what a Vuex subscriber would see). *)

Record Request : Type := {
  r_method : string;
  r_url : string;
  r_data : json;
  r_authorization : option string   (* the default header at the time of the call *)
}.

Record World : Type := {
  state : GlobalDataProps;
  localStorage : Dict.t string;
  headers_common : Dict.t string;    (* axios.defaults.headers.common *)
  requests : list Request;
  committed : list (string * json)
}.

Definition with_state (f : GlobalDataProps -> GlobalDataProps) (w : World) : World :=
  {| state := f (state w);
     localStorage := localStorage w;
     headers_common := headers_common w;
     requests := requests w;
     committed := committed w |}.

Definition with_columns (f : ColumnsState -> ColumnsState) (s : GlobalDataProps) :=
  {| token := token s; error := error s; loading := loading s;
     columns := f (columns s); posts := posts s; user := user s |}.

Definition with_posts (f : PostsState -> PostsState) (s : GlobalDataProps) :=
  {| token := token s; error := error s; loading := loading s;
     columns := columns s; posts := f (posts s); user := user s |}.

Definition with_posts_data (f : Dict.t json -> Dict.t json) (s : GlobalDataProps) :=
  with_posts (fun p => {| posts_data := f (posts_data p);
                          loadedColumns := loadedColumns p |}) s.

Definition with_columns_data (f : Dict.t json -> Dict.t json) (s : GlobalDataProps) :=
  with_columns (fun c => {| columns_data := f (columns_data c);
                            isLoaded := isLoaded c |}) s.

(* The initial state of createStore, given what localStorage holds. *)
Definition initial_state (storage : Dict.t string) : GlobalDataProps :=
  {| error := JObj [("status", JBool false)];
     token := match Dict.lookup "token" storage with
              | Some t => JStr t
              | None => JStr ""
              end;
     loading := JBool false;
     columns := {| columns_data := Dict.empty; isLoaded := false |};
     posts := {| posts_data := Dict.empty; loadedColumns := [] |};
     user := JObj [("isLogin", JBool false)] |}.

Definition initial_world (storage : Dict.t string) : World :=
  {| state := initial_state storage;
     localStorage := storage;
     headers_common := Dict.empty;
     requests := [];
     committed := [] |}.

(** ** Mutations

    A mutation takes its payload and the world and either completes or throws.
    Every mutation evaluates what can throw before its first assignment, so a
    throwing mutation leaves the world as it was. *)

Definition Mutation : Type := json -> World -> result World.

Module mutations.

(* state.posts.data[newPost._id] = newPost *)
Definition createPost : Mutation := fun newPost w =>
  id <- getProp newPost "_id" ;;
  Ok (with_state (with_posts_data (Dict.set (toString id) newPost)) w).

(* state.columns.data = arrToObj(rawData.data.list); state.columns.isLoaded = true *)
Definition fetchColumns : Mutation := fun rawData w =>
  d <- getProp rawData "data" ;;
  l <- getProp d "list" ;;
  o <- arrToObj l ;;
  Ok (with_state (with_columns (fun _ => {| columns_data := o; isLoaded := true |})) w).

(* state.columns.data[rawData.data._id] = rawData.data *)
Definition fetchColumn : Mutation := fun rawData w =>
  d <- getProp rawData "data" ;;
  id <- getProp d "_id" ;;
  Ok (with_state (with_columns_data (Dict.set (toString id) d)) w).

(* fetchPosts(state, { data: rawData, extraData: columnId }):
   state.posts.data = { ...state.posts.data, ...arrToObj(rawData.data.list) }
   state.posts.loadedColumns.push(columnId) *)
Definition fetchPosts : Mutation := fun payload w =>
  rawData <- getProp payload "data" ;;
  columnId <- getProp payload "extraData" ;;
  d <- getProp rawData "data" ;;
  l <- getProp d "list" ;;
  o <- arrToObj l ;;
  Ok (with_state (with_posts (fun p =>
        {| posts_data := Dict.merge (posts_data p) o;
           loadedColumns := loadedColumns p ++ [columnId] |})) w).

(* state.posts.data[rawData.data._id] = rawData.data *)
Definition fetchPost : Mutation := fun rawData w =>
  d <- getProp rawData "data" ;;
  id <- getProp d "_id" ;;
  Ok (with_state (with_posts_data (Dict.set (toString id) d)) w).

Definition setLoading : Mutation := fun status w =>
  Ok (with_state (fun s =>
        {| token := token s; error := error s; loading := status;
           columns := columns s; posts := posts s; user := user s |}) w).

Definition setError : Mutation := fun e w =>
  Ok (with_state (fun s =>
        {| token := token s; error := e; loading := loading s;
           columns := columns s; posts := posts s; user := user s |}) w).

(* const { token } = rawData.data; state.token = token;
   localStorage.setItem('token', token);
   axios.defaults.headers.common.Authorization = `Bearer ${token}` *)
Definition login : Mutation := fun rawData w =>
  d <- getProp rawData "data" ;;
  tok <- getProp d "token" ;;
  Ok {| state := {| token := tok; error := error (state w);
                    loading := loading (state w); columns := columns (state w);
                    posts := posts (state w); user := user (state w) |};
        localStorage := Dict.set "token" (toString tok) (localStorage w);
        headers_common :=
          Dict.set "Authorization" ("Bearer " ++ toString tok) (headers_common w);
        requests := requests w;
        committed := committed w |}.

(* state.user = { isLogin: true, ...rawData.data } *)
Definition fetchCurrentUser : Mutation := fun rawData w =>
  d <- getProp rawData "data" ;;
  Ok (with_state (fun s =>
        {| token := token s; error := error s; loading := loading s;
           columns := columns s; posts := posts s;
           user := JObj (Dict.merge [("isLogin", JBool true)] (ownEntries d)) |}) w).

(* state.token = ''; localStorage.removeItem('token');
   state.user = { isLogin: false };
   delete axios.defaults.headers.common.Authorization *)
Definition signOut : Mutation := fun _ w =>
  Ok {| state := {| token := JStr ""; error := error (state w);
                    loading := loading (state w); columns := columns (state w);
                    posts := posts (state w);
                    user := JObj [("isLogin", JBool false)] |};
        localStorage := Dict.delete "token" (localStorage w);
        headers_common := Dict.delete "Authorization" (headers_common w);
        requests := requests w;
        committed := committed w |}.

(* updatePost(state, { data }): state.posts.data[data._id] = data *)
Definition updatePost : Mutation := fun payload w =>
  d <- getProp payload "data" ;;
  id <- getProp d "_id" ;;
  Ok (with_state (with_posts_data (Dict.set (toString id) d)) w).

(* deletePost(state, { data }): delete state.posts.data[data._id] *)
Definition deletePost : Mutation := fun payload w =>
  d <- getProp payload "data" ;;
  id <- getProp d "_id" ;;
  Ok (with_state (with_posts_data (Dict.delete (toString id))) w).

End mutations.

Definition mutation_named (name : string) : option Mutation :=
  if String.eqb name "createPost" then Some mutations.createPost
  else if String.eqb name "fetchColumns" then Some mutations.fetchColumns
  else if String.eqb name "fetchColumn" then Some mutations.fetchColumn
  else if String.eqb name "fetchPosts" then Some mutations.fetchPosts
  else if String.eqb name "fetchPost" then Some mutations.fetchPost
  else if String.eqb name "setLoading" then Some mutations.setLoading
  else if String.eqb name "setError" then Some mutations.setError
  else if String.eqb name "login" then Some mutations.login
  else if String.eqb name "fetchCurrentUser" then Some mutations.fetchCurrentUser
  else if String.eqb name "signOut" then Some mutations.signOut
  else if String.eqb name "updatePost" then Some mutations.updatePost
  else if String.eqb name "deletePost" then Some mutations.deletePost
  else None.

Definition log_commit (name : string) (payload : json) (w : World) : World :=
  {| state := state w;
     localStorage := localStorage w;
     headers_common := headers_common w;
     requests := requests w;
     committed := committed w ++ [(name, payload)] |}.

(* store.commit(name, payload).  An unknown name is reported on the console
   and changes nothing. *)
Definition commit (name : string) (payload : json) (w : World) : result World :=
  match mutation_named name with
  | Some m => w' <- m payload w ;; Ok (log_commit name payload w')
  | None => Ok w
  end.

(** ** The HTTP client

    [axios(url, config)] either resolves with a response, whose body [data]
    is all the store reads, or rejects with a reason.  The remote side is an
    oracle: its answer may depend on the request and on everything that was
    requested before. *)

Inductive Outcome : Type :=
| Resolve (data : json)
| Reject (reason : json).

Definition Network : Type := list Request -> Request -> Outcome.

Record AxiosRequestConfig : Type := {
  method : string;
  data : json
}.

Definition default_config : AxiosRequestConfig :=
  {| method := "get"; data := JUndefined |}.

Definition request_of (url : string) (config : AxiosRequestConfig) (w : World) : Request :=
  {| r_method := method config;
     r_url := url;
     r_data := data config;
     r_authorization := Dict.lookup "Authorization" (headers_common w) |}.

Definition log_request (r : Request) (w : World) : World :=
  {| state := state w;
     localStorage := localStorage w;
     headers_common := headers_common w;
     requests := requests w ++ [r];
     committed := committed w |}.

(** ** Actions

    An action runs to completion on a world.  A dispatch wraps whatever the
    handler returns in a promise, which is resolved with a value (with
    [undefined] when the handler returns nothing) or rejected with an error.
    When the handler itself throws before it returns, the dispatch throws
    too and there is no promise: that is [Thrown]. *)

Inductive Settled : Type :=
| Resolved (v : json)
| Rejected (e : exn)
| Thrown (e : exn).

Definition Action : Type := World -> Settled * World.

(* const { data } = await axios(url, config)
   if (extraData) commit(mutationName, { data, extraData })
   else commit(mutationName, data)
   return data *)
Definition asyncAndCommit (axios : Network) (url mutationName : string)
    (config : AxiosRequestConfig) (extraData : json) : Action := fun w =>
  let req := request_of url config w in
  let w1 := log_request req w in
  match axios (requests w) req with
  | Reject reason => (Rejected (AxiosError reason), w1)
  | Resolve data =>
      let payload :=
        if truthy extraData
        then JObj [("data", data); ("extraData", extraData)]
        else data in
      match commit mutationName payload w1 with
      | Ok w2 => (Resolved data, w2)
      | Throw e => (Rejected e, w1)
      end
  end.

Module actions.

Section WithNetwork.
Variable axios : Network.

Definition fetchColumns (data : json) : Action := fun w =>
  if negb (isLoaded (columns (state w))) then
    match getProp data "page", getProp data "size" with
    | Ok page, Ok size =>
        asyncAndCommit axios
          ("/columns?currentPage=" ++ toString page ++ "&pageSize=" ++ toString size)
          "fetchColumns" default_config JUndefined w
    | Throw e, _ | _, Throw e => (Thrown e, w)
    end
  else (Resolved JUndefined, w).

Definition fetchColumn (cid : string) : Action := fun w =>
  if negb (truthy (get cid (columns_data (columns (state w))))) then
    asyncAndCommit axios ("/columns/" ++ cid) "fetchColumn" default_config JUndefined w
  else (Resolved JUndefined, w).

Definition fetchPosts (cid : string) : Action := fun w =>
  if negb (includes cid (loadedColumns (posts (state w)))) then
    asyncAndCommit axios ("/columns/" ++ cid ++ "/posts") "fetchPosts"
      {| method := "get"; data := JUndefined |} (JStr cid) w
  else (Resolved JUndefined, w).

Definition fetchPost (id : string) : Action := fun w =>
  let currentPost := get id (posts_data (posts (state w))) in
  if negb (truthy currentPost) || negb (truthy (member currentPost "content")) then
    asyncAndCommit axios ("/posts/" ++ id) "fetchPost" default_config JUndefined w
  else (Resolved (JObj [("data", currentPost)]), w).

Definition fetchCurrentUser : Action :=
  asyncAndCommit axios "/user/current" "fetchCurrentUser" default_config JUndefined.

Definition login (payload : json) : Action :=
  asyncAndCommit axios "/user/login" "login"
    {| method := "post"; data := payload |} JUndefined.

(* dispatch('login', loginData).then(() => dispatch('fetchCurrentUser')) *)
Definition loginAndFetch (loginData : json) : Action := fun w =>
  match login loginData w with
  | (Resolved _, w1) => fetchCurrentUser w1
  | (Rejected e, w1) => (Rejected e, w1)
  | (Thrown e, w1) => (Thrown e, w1)
  end.

Definition createPost (payload : json) : Action :=
  asyncAndCommit axios "/posts" "createPost"
    {| method := "post"; data := payload |} JUndefined.

(* updatePost({ commit }, { id, payload }) *)
Definition updatePost (arg : json) : Action := fun w =>
  match getProp arg "id" with
  | Ok id =>
      asyncAndCommit axios ("/posts/" ++ toString id) "updatePost"
        {| method := "patch"; data := member arg "payload" |} JUndefined w
  | Throw e => (Thrown e, w)
  end.

Definition deletePost (id : string) : Action :=
  asyncAndCommit axios ("/posts/" ++ id) "deletePost"
    {| method := "delete"; data := JUndefined |} JUndefined.

End WithNetwork.

End actions.

(* store.dispatch(type, payload), one constructor per registered action *)
Inductive Dispatch : Type :=
| FetchColumns (data : json)
| FetchColumn (cid : string)
| FetchPosts (cid : string)
| FetchPost (id : string)
| FetchCurrentUser
| Login (payload : json)
| LoginAndFetch (loginData : json)
| CreatePost (payload : json)
| UpdatePost (arg : json)
| DeletePost (id : string).

Definition dispatch (axios : Network) (a : Dispatch) : Action :=
  match a with
  | FetchColumns data => actions.fetchColumns axios data
  | FetchColumn cid => actions.fetchColumn axios cid
  | FetchPosts cid => actions.fetchPosts axios cid
  | FetchPost id => actions.fetchPost axios id
  | FetchCurrentUser => actions.fetchCurrentUser axios
  | Login payload => actions.login axios payload
  | LoginAndFetch loginData => actions.loginAndFetch axios loginData
  | CreatePost payload => actions.createPost axios payload
  | UpdatePost arg => actions.updatePost axios arg
  | DeletePost id => actions.deletePost axios id
  end.

(** ** Getters *)

Module getters.

Definition getColumns (s : GlobalDataProps) : list json :=
  objToArr (columns_data (columns s)).

Definition getColumnById (s : GlobalDataProps) (id : string) : json :=
  get id (columns_data (columns s)).

(* the callback of the filter: post.column === cid *)
Definition in_column (cid : string) (post : json) : result bool :=
  c <- getProp post "column" ;; Ok (strict_eq_str c cid).

Fixpoint filter_posts (cid : string) (l : list json) : result (list json) :=
  match l with
  | [] => Ok []
  | post :: r =>
      keep <- in_column cid post ;;
      rest <- filter_posts cid r ;;
      Ok (if keep then post :: rest else rest)
  end.

(* objToArr(state.posts.data).filter(post => post.column === cid) *)
Definition getPostsByCid (s : GlobalDataProps) (cid : string) : result (list json) :=
  filter_posts cid (objToArr (posts_data (posts s))).

Definition getCurrentPost (s : GlobalDataProps) (id : string) : json :=
  get id (posts_data (posts s)).

End getters.

(** * The first version of the store

    The source file holds two definitions of the store.  What is modelled
    above is the second one, which tracks what has been loaded.  This is the
    first one: the caches are the bare objects, the actions always go to the
    network through [getAndCommit], [postAndCommit] and [asyncAndCommit], and
    [fetchPosts] replaces the post cache. *)

Module V1.

Record GlobalDataProps : Type := {
  token : json;
  error : json;
  loading : json;
  columns : Dict.t json;
  posts : Dict.t json;
  user : json
}.

Record World : Type := {
  state : GlobalDataProps;
  localStorage : Dict.t string;
  headers_common : Dict.t string;
  requests : list Request;
  committed : list (string * json)
}.

Definition with_state (f : GlobalDataProps -> GlobalDataProps) (w : World) : World :=
  {| state := f (state w);
     localStorage := localStorage w;
     headers_common := headers_common w;
     requests := requests w;
     committed := committed w |}.

Definition with_columns (f : Dict.t json -> Dict.t json) (s : GlobalDataProps) :=
  {| token := token s; error := error s; loading := loading s;
     columns := f (columns s); posts := posts s; user := user s |}.

Definition with_posts (f : Dict.t json -> Dict.t json) (s : GlobalDataProps) :=
  {| token := token s; error := error s; loading := loading s;
     columns := columns s; posts := f (posts s); user := user s |}.

Definition initial_state (storage : Dict.t string) : GlobalDataProps :=
  {| error := JObj [("status", JBool false)];
     token := match Dict.lookup "token" storage with
              | Some t => JStr t
              | None => JStr ""
              end;
     loading := JBool false;
     columns := Dict.empty;
     posts := Dict.empty;
     user := JObj [("isLogin", JBool false)] |}.

Definition initial_world (storage : Dict.t string) : World :=
  {| state := initial_state storage;
     localStorage := storage;
     headers_common := Dict.empty;
     requests := [];
     committed := [] |}.

Definition Mutation : Type := json -> World -> result World.

Module mutations.

(* state.posts[newPost._id] = newPost *)
Definition createPost : Mutation := fun newPost w =>
  id <- getProp newPost "_id" ;;
  Ok (with_state (with_posts (Dict.set (toString id) newPost)) w).

(* state.columns = arrToObj(rawData.data.list) *)
Definition fetchColumns : Mutation := fun rawData w =>
  d <- getProp rawData "data" ;;
  l <- getProp d "list" ;;
  o <- arrToObj l ;;
  Ok (with_state (with_columns (fun _ => o)) w).

(* state.columns[rawData.data._id] = rawData.data *)
Definition fetchColumn : Mutation := fun rawData w =>
  d <- getProp rawData "data" ;;
  id <- getProp d "_id" ;;
  Ok (with_state (with_columns (Dict.set (toString id) d)) w).

(* state.posts = arrToObj(rawData.data.list) *)
Definition fetchPosts : Mutation := fun rawData w =>
  d <- getProp rawData "data" ;;
  l <- getProp d "list" ;;
  o <- arrToObj l ;;
  Ok (with_state (with_posts (fun _ => o)) w).

(* state.posts[rawData.data._id] = rawData.data *)
Definition fetchPost : Mutation := fun rawData w =>
  d <- getProp rawData "data" ;;
  id <- getProp d "_id" ;;
  Ok (with_state (with_posts (Dict.set (toString id) d)) w).

Definition setLoading : Mutation := fun status w =>
  Ok (with_state (fun s =>
        {| token := token s; error := error s; loading := status;
           columns := columns s; posts := posts s; user := user s |}) w).

Definition setError : Mutation := fun e w =>
  Ok (with_state (fun s =>
        {| token := token s; error := e; loading := loading s;
           columns := columns s; posts := posts s; user := user s |}) w).

Definition login : Mutation := fun rawData w =>
  d <- getProp rawData "data" ;;
  tok <- getProp d "token" ;;
  Ok {| state := {| token := tok; error := error (state w);
                    loading := loading (state w); columns := columns (state w);
                    posts := posts (state w); user := user (state w) |};
        localStorage := Dict.set "token" (toString tok) (localStorage w);
        headers_common :=
          Dict.set "Authorization" ("Bearer " ++ toString tok) (headers_common w);
        requests := requests w;
        committed := committed w |}.

Definition fetchCurrentUser : Mutation := fun rawData w =>
  d <- getProp rawData "data" ;;
  Ok (with_state (fun s =>
        {| token := token s; error := error s; loading := loading s;
           columns := columns s; posts := posts s;
           user := JObj (Dict.merge [("isLogin", JBool true)] (ownEntries d)) |}) w).

Definition signOut : Mutation := fun _ w =>
  Ok {| state := {| token := JStr ""; error := error (state w);
                    loading := loading (state w); columns := columns (state w);
                    posts := posts (state w);
                    user := JObj [("isLogin", JBool false)] |};
        localStorage := Dict.delete "token" (localStorage w);
        headers_common := Dict.delete "Authorization" (headers_common w);
        requests := requests w;
        committed := committed w |}.

(* updatePost(state, { data }): state.posts[data._id] = data *)
Definition updatePost : Mutation := fun payload w =>
  d <- getProp payload "data" ;;
  id <- getProp d "_id" ;;
  Ok (with_state (with_posts (Dict.set (toString id) d)) w).

(* deletePost(state, { data }): delete state.posts[data._id] *)
Definition deletePost : Mutation := fun payload w =>
  d <- getProp payload "data" ;;
  id <- getProp d "_id" ;;
  Ok (with_state (with_posts (Dict.delete (toString id))) w).

End mutations.

Definition mutation_named (name : string) : option Mutation :=
  if String.eqb name "createPost" then Some mutations.createPost
  else if String.eqb name "fetchColumns" then Some mutations.fetchColumns
  else if String.eqb name "fetchColumn" then Some mutations.fetchColumn
  else if String.eqb name "fetchPosts" then Some mutations.fetchPosts
  else if String.eqb name "fetchPost" then Some mutations.fetchPost
  else if String.eqb name "setLoading" then Some mutations.setLoading
  else if String.eqb name "setError" then Some mutations.setError
  else if String.eqb name "login" then Some mutations.login
  else if String.eqb name "fetchCurrentUser" then Some mutations.fetchCurrentUser
  else if String.eqb name "signOut" then Some mutations.signOut
  else if String.eqb name "updatePost" then Some mutations.updatePost
  else if String.eqb name "deletePost" then Some mutations.deletePost
  else None.

Definition log_commit (name : string) (payload : json) (w : World) : World :=
  {| state := state w;
     localStorage := localStorage w;
     headers_common := headers_common w;
     requests := requests w;
     committed := committed w ++ [(name, payload)] |}.

Definition commit (name : string) (payload : json) (w : World) : result World :=
  match mutation_named name with
  | Some m => w' <- m payload w ;; Ok (log_commit name payload w')
  | None => Ok w
  end.

Definition request_of (url : string) (config : AxiosRequestConfig) (w : World) : Request :=
  {| r_method := method config;
     r_url := url;
     r_data := data config;
     r_authorization := Dict.lookup "Authorization" (headers_common w) |}.

Definition log_request (r : Request) (w : World) : World :=
  {| state := state w;
     localStorage := localStorage w;
     headers_common := headers_common w;
     requests := requests w ++ [r];
     committed := committed w |}.

Definition Action : Type := World -> Settled * World.

(* const { data } = await axios(url, config); commit(mutationName, data);
   return data *)
Definition asyncAndCommit (axios : Network) (url mutationName : string)
    (config : AxiosRequestConfig) : Action := fun w =>
  let req := request_of url config w in
  let w1 := log_request req w in
  match axios (requests w) req with
  | Reject reason => (Rejected (AxiosError reason), w1)
  | Resolve data =>
      match commit mutationName data w1 with
      | Ok w2 => (Resolved data, w2)
      | Throw e => (Rejected e, w1)
      end
  end.

(* const { data } = await axios.get(url); commit(mutationName, data);
   return data *)
Definition getAndCommit (axios : Network) (url mutationName : string) : Action :=
  fun w =>
  let req := request_of url {| method := "get"; data := JUndefined |} w in
  let w1 := log_request req w in
  match axios (requests w) req with
  | Reject reason => (Rejected (AxiosError reason), w1)
  | Resolve data =>
      match commit mutationName data w1 with
      | Ok w2 => (Resolved data, w2)
      | Throw e => (Rejected e, w1)
      end
  end.

(* const { data } = await axios.post(url, payload); commit(mutationName, data);
   return data *)
Definition postAndCommit (axios : Network) (url mutationName : string)
    (payload : json) : Action := fun w =>
  let req := request_of url {| method := "post"; data := payload |} w in
  let w1 := log_request req w in
  match axios (requests w) req with
  | Reject reason => (Rejected (AxiosError reason), w1)
  | Resolve data =>
      match commit mutationName data w1 with
      | Ok w2 => (Resolved data, w2)
      | Throw e => (Rejected e, w1)
      end
  end.

Module actions.

Section WithNetwork.
Variable axios : Network.

Definition fetchColumns (data : json) : Action := fun w =>
  match getProp data "page", getProp data "size" with
  | Ok page, Ok size =>
      getAndCommit axios
        ("/columns?currentPage=" ++ toString page ++ "&pageSize=" ++ toString size)
        "fetchColumns" w
  | Throw e, _ | _, Throw e => (Thrown e, w)
  end.

Definition fetchColumn (cid : string) : Action :=
  getAndCommit axios ("/columns/" ++ cid) "fetchColumn".

Definition fetchPosts (cid : string) : Action :=
  getAndCommit axios ("/columns/" ++ cid ++ "/posts") "fetchPosts".

Definition fetchPost (id : string) : Action :=
  getAndCommit axios ("/posts/" ++ id) "fetchPost".

Definition fetchCurrentUser : Action :=
  getAndCommit axios "/user/current" "fetchCurrentUser".

Definition login (payload : json) : Action :=
  postAndCommit axios "/user/login" "login" payload.

Definition loginAndFetch (loginData : json) : Action := fun w =>
  match login loginData w with
  | (Resolved _, w1) => fetchCurrentUser w1
  | (Rejected e, w1) => (Rejected e, w1)
  | (Thrown e, w1) => (Thrown e, w1)
  end.

Definition createPost (payload : json) : Action :=
  asyncAndCommit axios "/posts" "createPost" {| method := "post"; data := payload |}.

Definition updatePost (arg : json) : Action := fun w =>
  match getProp arg "id" with
  | Ok id =>
      asyncAndCommit axios ("/posts/" ++ toString id) "updatePost"
        {| method := "patch"; data := member arg "payload" |} w
  | Throw e => (Thrown e, w)
  end.

Definition deletePost (id : string) : Action :=
  asyncAndCommit axios ("/posts/" ++ id) "deletePost"
    {| method := "delete"; data := JUndefined |}.

End WithNetwork.

End actions.

Definition dispatch (axios : Network) (a : Dispatch) : Action :=
  match a with
  | FetchColumns data => actions.fetchColumns axios data
  | FetchColumn cid => actions.fetchColumn axios cid
  | FetchPosts cid => actions.fetchPosts axios cid
  | FetchPost id => actions.fetchPost axios id
  | FetchCurrentUser => actions.fetchCurrentUser axios
  | Login payload => actions.login axios payload
  | LoginAndFetch loginData => actions.loginAndFetch axios loginData
  | CreatePost payload => actions.createPost axios payload
  | UpdatePost arg => actions.updatePost axios arg
  | DeletePost id => actions.deletePost axios id
  end.

Module getters.

Definition getColumns (s : GlobalDataProps) : list json := objToArr (columns s).

Definition getColumnById (s : GlobalDataProps) (id : string) : json :=
  get id (columns s).

(* objToArr(state.posts).filter(post => post.column === cid) *)
Definition getPostsByCid (s : GlobalDataProps) (cid : string) : result (list json) :=
  getters.filter_posts cid (objToArr (posts s)).

Definition getCurrentPost (s : GlobalDataProps) (id : string) : json :=
  get id (posts s).

End getters.

End V1.

(* The state of the second version as the first version holds it: the caches
   without their load tracking. *)
Definition forget_state (s : GlobalDataProps) : V1.GlobalDataProps :=
  {| V1.token := token s;
     V1.error := error s;
     V1.loading := loading s;
     V1.columns := columns_data (columns s);
     V1.posts := posts_data (posts s);
     V1.user := user s |}.

Definition forget (w : World) : V1.World :=
  {| V1.state := forget_state (state w);
     V1.localStorage := localStorage w;
     V1.headers_common := headers_common w;
     V1.requests := requests w;
     V1.committed := committed w |}.

(* The outcome of an action of the second version, seen from the first. *)
Definition forget_outcome (r : Settled * World) : Settled * V1.World :=
  (fst r, forget (snd r)).

(** * Vocabulary of the properties *)

(* What the world is after trying to run a mutation: a throwing mutation has
   assigned nothing. *)
Definition apply_mutation (m : Mutation) (payload : json) (w : World) : World :=
  match m payload w with
  | Ok w' => w'
  | Throw _ => w
  end.

Definition nullish (v : json) : bool :=
  match v with
  | JUndefined | JNull => true
  | _ => false
  end.

(* No entry of a cache is undefined or null. *)
Definition entries_defined (o : Dict.t json) : bool :=
  forallb (fun v => negb (nullish v)) (objToArr o).

Definition same_store (w w' : World) : Prop :=
  state w' = state w /\
  localStorage w' = localStorage w /\
  headers_common w' = headers_common w /\
  committed w' = committed w.

(* the payload handed to the mutation by asyncAndCommit *)
Definition commit_payload (data extraData : json) : json :=
  if truthy extraData
  then JObj [("data", data); ("extraData", extraData)]
  else data.

(* What an action resolves with when its guard skips the request. *)
Definition memoized_value (a : Dispatch) (w : World) (v : json) : Prop :=
  match a with
  | FetchPost id =>
      let cached := getters.getCurrentPost (state w) id in
      truthy (member cached "content") = true /\ v = JObj [("data", cached)]
  | FetchColumns _ | FetchColumn _ | FetchPosts _ => v = JUndefined
  | _ => False
  end.

(* The request a fetch action makes for a url, in a given world. *)
Definition get_request (url : string) (w : World) : Request :=
  request_of url default_config w.

Definition posts_request (cid : string) (w : World) : Request :=
  get_request ("/columns/" ++ cid ++ "/posts") w.

(* The key under which the caches file an entity. *)
Definition entity_key (p : json) : string := toString (member p "_id").

(* A server-shaped entity: an object with a non-empty string as [_id]. *)
Definition is_entity (p : json) : bool :=
  match member p "_id" with
  | JStr s => negb (String.eqb s "")
  | _ => false
  end.

Fixpoint distinct (l : list string) : bool :=
  match l with
  | [] => true
  | x :: r => negb (existsb (String.eqb x) r) && distinct r
  end.

Definition keyed (l : list json) : list (string * json) :=
  map (fun p => (entity_key p, p)) l.

(* Every key of a cache is the [_id] of the value filed under it. *)
Definition keys_are_ids (o : Dict.t json) : Prop :=
  forall k v, Dict.lookup k o = Some v -> member v "_id" = JStr k.

Definition cache_invariant (s : GlobalDataProps) : Prop :=
  keys_are_ids (columns_data (columns s)) /\
  keys_are_ids (posts_data (posts s)).

(* The payloads the actions commit, when the remote side answers as the API
   is described: an envelope around an entity, around a page with a list of
   entities, or around some other data; [fetchPosts] gets the envelope one
   level down.  [setLoading], [setError] and [signOut] take anything. *)
Definition batch_shaped (rawData : json) : bool :=
  match member (member rawData "data") "list" with
  | JArr l => forallb is_entity l
  | _ => false
  end.

Definition server_shaped (name : string) (payload : json) : bool :=
  if String.eqb name "fetchColumns" then batch_shaped payload
  else if String.eqb name "fetchPosts" then batch_shaped (member payload "data")
  else if String.eqb name "fetchColumn" || String.eqb name "fetchPost"
          || String.eqb name "updatePost" || String.eqb name "deletePost"
          || String.eqb name "createPost"
       then is_entity (member payload "data")
  else if String.eqb name "login" || String.eqb name "fetchCurrentUser"
       then negb (nullish (member payload "data"))
  else true.

(* What a commit of the mutation [name] leaves alone between two worlds:
   each slot can only be written by the mutations named beside it. *)
Definition frame (name : string) (w w' : World) : Prop :=
  (name <> "setLoading" -> loading (state w') = loading (state w)) /\
  (name <> "setError" -> error (state w') = error (state w)) /\
  (name <> "login" -> name <> "signOut" ->
     token (state w') = token (state w) /\
     localStorage w' = localStorage w /\
     headers_common w' = headers_common w) /\
  (name <> "fetchCurrentUser" -> name <> "signOut" ->
     user (state w') = user (state w)) /\
  (name <> "fetchColumns" -> name <> "fetchColumn" ->
     columns (state w') = columns (state w)) /\
  (name <> "createPost" -> name <> "fetchPosts" -> name <> "fetchPost" ->
   name <> "updatePost" -> name <> "deletePost" ->
     posts (state w') = posts (state w)).

(* The request of the deletePost action. *)
Definition delete_request (id : string) (w : World) : Request :=
  request_of ("/posts/" ++ id) {| method := "delete"; data := JUndefined |} w.

(* The request of the updatePost action for an argument { id, payload }. *)
Definition patch_request (arg : json) (w : World) : Request :=
  request_of ("/posts/" ++ toString (member arg "id"))
    {| method := "patch"; data := member arg "payload" |} w.

(* Whether an action of the second version goes to the network in a world. *)
Definition guard_passes (a : Dispatch) (w : World) : bool :=
  match a with
  | FetchColumns _ => negb (isLoaded (columns (state w)))
  | FetchColumn cid => negb (truthy (getters.getColumnById (state w) cid))
  | FetchPosts cid => negb (includes cid (loadedColumns (posts (state w))))
  | FetchPost id =>
      negb (truthy (getters.getCurrentPost (state w) id))
      || negb (truthy (member (getters.getCurrentPost (state w) id) "content"))
  | _ => true
  end.

Definition is_fetchPosts (a : Dispatch) : bool :=
  match a with
  | FetchPosts _ => true
  | _ => false
  end.

(* How many requests an action of the first version makes: one, except that
   [loginAndFetch] makes a second one after a resolved [login], and that
   [fetchColumns] and [updatePost] make none when their argument is undefined
   or null. *)
Definition v1_requests_made (axios : Network) (a : Dispatch) (w : V1.World) : nat :=
  match a with
  | FetchColumns d | UpdatePost d => if nullish d then 0 else 1
  | LoginAndFetch d =>
      match fst (V1.actions.login axios d w) with
      | Resolved _ => 2
      | Rejected _ | Thrown _ => 1
      end
  | _ => 1
  end.

(** ** Sample worlds and remote sides *)

Definition mixed_cache : GlobalDataProps :=
  with_posts_data (fun _ =>
    [("p1", JObj [("_id", JStr "p1"); ("title", JStr "a"); ("column", JStr "c1")]);
     ("p2", JObj [("_id", JStr "p2"); ("title", JStr "b"); ("column", JStr "c2")]);
     ("p3", JObj [("_id", JStr "p3"); ("title", JStr "c"); ("column", JStr "c1")])])
    (initial_state []).

(* The envelope the API wraps its answers in. *)
Definition envelope (d : json) : json :=
  JObj [("code", JNum 0); ("msg", JStr "ok"); ("data", d)].

Definition login_response : json := envelope (JObj [("token", JStr "t0k3n")]).

(* A remote side that accepts the login and then fails to serve the profile. *)
Definition profile_down : Network := fun _ r =>
  if String.eqb (r_url r) "/user/login" then Resolve login_response
  else Reject (JStr "Network Error").

Definition credentials : json :=
  JObj [("email", JStr "a@b.c"); ("password", JStr "secret")].

Definition column_c1 : json :=
  JObj [("_id", JStr "c1"); ("title", JStr "Rocq"); ("description", JStr "notes")].

(* A remote side that answers every request with column c1. *)
Definition serves_c1 : Network := fun _ _ => Resolve (envelope column_c1).

Definition c1_cached : World :=
  with_state (with_columns_data (Dict.set "c1" column_c1)) (initial_world []).

Definition stub_p1 : json := JObj [("_id", JStr "p1"); ("title", JStr "t")].

Definition full_p1 : list (string * json) :=
  [("_id", JStr "p1"); ("title", JStr "t"); ("content", JStr "body");
   ("column", JStr "c1")].

Definition serves_p1 : Network := fun _ _ => Resolve (envelope (JObj full_p1)).

Definition p1_stubbed : World :=
  with_state (with_posts_data (Dict.set "p1" stub_p1)) (initial_world []).

Definition post_of (id cid : string) : json :=
  JObj [("_id", JStr id); ("title", JStr "t"); ("column", JStr cid)].

Definition posts_cA : list json := [post_of "a1" "cA"; post_of "a2" "cA"].
Definition posts_cB : list json := [post_of "b1" "cB"].

Definition serves_posts : Network := fun _ r =>
  if String.eqb (r_url r) "/columns/cA/posts"
  then Resolve (envelope (JObj [("list", JArr posts_cA)]))
  else Resolve (envelope (JObj [("list", JArr posts_cB)])).

Definition new_post : json :=
  JObj [("title", JStr "t"); ("content", JStr "body"); ("column", JStr "c1")].

Definition created : json := envelope (JObj full_p1).

(* A remote side that answers with the post it has created. *)
Definition serves_created : Network := fun _ _ => Resolve created.

(* A remote side that answers every request with a page holding column c1. *)
Definition serves_page : Network := fun _ _ =>
  Resolve (envelope (JObj [("list", JArr [column_c1])])).

Definition page_1 : json := JObj [("page", JNum 1); ("size", JNum 5)].
Definition page_2 : json := JObj [("page", JNum 2); ("size", JNum 5)].

(* A remote side whose answers carry no data. *)
Definition serves_no_data : Network := fun _ _ =>
  Resolve (JObj [("code", JNum 0); ("msg", JStr "deleted")]).

(* A column whose id is the name of a member every object inherits, and a
   remote side that serves it. *)
Definition column_constructor : json :=
  JObj [("_id", JStr "constructor"); ("title", JStr "c"); ("description", JStr "d")].

Definition serves_constructor : Network := fun _ _ =>
  Resolve (envelope column_constructor).

(** * Properties *)

Open Scope list_scope.

(** ** Dictionaries *)

Section DictFacts.
Context {V : Type}.
Implicit Types (o a b : Dict.t V) (k : string) (v : V).

Lemma lookup_set_eq k v o : Dict.lookup k (Dict.set k v o) = Some v.
Proof.
  induction o as [|[k' v'] r IH]; simpl.
  - now rewrite String.eqb_refl.
  - destruct (String.eqb k k') eqn:E; simpl; rewrite ?String.eqb_refl, ?E; auto.
Qed.

Lemma lookup_set_neq k k' v o :
  k <> k' -> Dict.lookup k' (Dict.set k v o) = Dict.lookup k' o.
Proof.
  intros Hne. induction o as [|[k0 v0] r IH]; simpl.
  - destruct (String.eqb k' k) eqn:E; auto.
    apply String.eqb_eq in E. congruence.
  - destruct (String.eqb k k0) eqn:E; simpl.
    + apply String.eqb_eq in E. subst k0.
      destruct (String.eqb k' k) eqn:E'; auto.
      apply String.eqb_eq in E'. congruence.
    + now rewrite IH.
Qed.

Lemma lookup_set k k' v o :
  Dict.lookup k' (Dict.set k v o) =
  if String.eqb k k' then Some v else Dict.lookup k' o.
Proof.
  destruct (String.eqb k k') eqn:E.
  - apply String.eqb_eq in E. subst. apply lookup_set_eq.
  - apply String.eqb_neq in E. now apply lookup_set_neq.
Qed.

Lemma lookup_delete k k' o :
  Dict.lookup k' (Dict.delete k o) =
  if String.eqb k k' then None else Dict.lookup k' o.
Proof.
  induction o as [|[k0 v0] r IH]; simpl.
  - now destruct (String.eqb k k').
  - destruct (String.eqb k k0) eqn:E; simpl.
    + rewrite IH. apply String.eqb_eq in E. subst k0.
      rewrite (String.eqb_sym k' k). now destruct (String.eqb k k').
    + rewrite IH. destruct (String.eqb k k') eqn:E'; auto.
      apply String.eqb_eq in E'. subst k'.
      now rewrite E.
Qed.

Lemma in_keys k o : In k (Dict.keys o) <-> Dict.lookup k o <> None.
Proof.
  induction o as [|[k0 v0] r IH]; simpl.
  - intuition congruence.
  - destruct (String.eqb k k0) eqn:E.
    + apply String.eqb_eq in E. subst. intuition congruence.
    + apply String.eqb_neq in E. split.
      * intros [H|H]; [congruence|].
        apply in_remove in H. now apply IH.
      * intros H. right. apply in_in_remove; [congruence | now apply IH].
Qed.

Lemma NoDup_keys o : NoDup (Dict.keys o).
Proof.
  induction o as [|[k0 v0] r IH]; simpl; constructor.
  - apply remove_In.
  - clear -IH. induction (Dict.keys r) as [|x l IHl]; simpl; [constructor|].
    inversion IH; subst.
    destruct (string_dec k0 x); auto.
    constructor; auto. intros H. apply in_remove in H. tauto.
Qed.

Lemma in_entries k v o : In (k, v) (Dict.entries o) <-> Dict.lookup k o = Some v.
Proof.
  unfold Dict.entries. rewrite in_flat_map. split.
  - intros (k' & _ & H). destruct (Dict.lookup k' o) eqn:E; simpl in H; [|tauto].
    destruct H as [H|[]]. now inversion H; subst.
  - intros H. exists k. split.
    + apply in_keys. congruence.
    + rewrite H. now left.
Qed.

Lemma fst_entries o : map fst (Dict.entries o) = Dict.keys o.
Proof.
  unfold Dict.entries.
  assert (H : forall k, In k (Dict.keys o) -> Dict.lookup k o <> None)
    by (intros; now apply in_keys).
  induction (Dict.keys o) as [|k l IH]; simpl; auto.
  destruct (Dict.lookup k o) eqn:E.
  - simpl. f_equal. apply IH. intros; apply H; now right.
  - exfalso. apply (H k); [now left | assumption].
Qed.

(* Setting a list of bindings with distinct keys, one after the other. *)
Lemma lookup_fold_set (l : list (string * V)) a k :
  NoDup (map fst l) ->
  Dict.lookup k (fold_left (fun acc kv => Dict.set (fst kv) (snd kv) acc) l a) =
  match Dict.lookup k l with
  | Some v => Some v
  | None => Dict.lookup k a
  end.
Proof.
  revert a. induction l as [|[k0 v0] r IH]; intros a Hnd; simpl; auto.
  inversion Hnd as [|? ? Hnotin Hnd']; subst.
  rewrite IH by assumption. simpl.
  destruct (String.eqb k k0) eqn:E.
  - apply String.eqb_eq in E. subst k0.
    destruct (Dict.lookup k r) eqn:El.
    + exfalso. apply Hnotin. apply in_map_iff.
      exists (k, v). split; auto.
      clear -El. induction r as [|[k1 v1] r IH]; simpl in *; [discriminate|].
      destruct (String.eqb k k1) eqn:E.
      * apply String.eqb_eq in E. inversion El; subst. now left.
      * right. auto.
    + apply lookup_set_eq.
  - apply String.eqb_neq in E.
    rewrite lookup_set_neq by congruence. reflexivity.
Qed.

Lemma lookup_entries k o : Dict.lookup k (Dict.entries o) = Dict.lookup k o.
Proof.
  destruct (Dict.lookup k o) eqn:E.
  - apply in_entries in E.
    pose proof (NoDup_keys o) as Hnd. rewrite <- fst_entries in Hnd.
    revert E Hnd. generalize (Dict.entries o) as l.
    induction l as [|[k1 v1] r IH]; simpl; [tauto|].
    intros [H|H] Hnd; inversion Hnd; subst.
    + inversion H; subst. now rewrite String.eqb_refl.
    + destruct (String.eqb k k1) eqn:E'; auto.
      apply String.eqb_eq in E'. subst k1.
      exfalso. apply H2. apply in_map_iff. now exists (k, v).
  - destruct (Dict.lookup k (Dict.entries o)) eqn:E'; auto.
    assert (In (k, v) (Dict.entries o)).
    { clear -E'. induction (Dict.entries o) as [|[k1 v1] r IH]; simpl in *;
        [discriminate|].
      destruct (String.eqb k k1) eqn:E.
      - apply String.eqb_eq in E. inversion E'; subst. now left.
      - right. auto. }
    apply in_entries in H. congruence.
Qed.

(* { ...a, ...b }[k] is b[k] when b has k, and a[k] otherwise *)
Lemma lookup_merge a b k :
  Dict.lookup k (Dict.merge a b) =
  match Dict.lookup k b with
  | Some v => Some v
  | None => Dict.lookup k a
  end.
Proof.
  unfold Dict.merge. rewrite lookup_fold_set.
  - now rewrite lookup_entries.
  - rewrite fst_entries. apply NoDup_keys.
Qed.

End DictFacts.

Lemma get_set (k k' : string) (v : json) (o : Dict.t json) :
  get k' (Dict.set k v o) = if String.eqb k k' then v else get k' o.
Proof.
  unfold get. rewrite lookup_set. now destruct (String.eqb k k').
Qed.

Lemma in_objToArr (v : json) (o : Dict.t json) :
  In v (objToArr o) <-> exists k, Dict.lookup k o = Some v.
Proof.
  unfold objToArr. rewrite in_map_iff. split.
  - intros (k & Hget & Hin). exists k. apply in_keys in Hin.
    unfold get in Hget. destruct (Dict.lookup k o); congruence.
  - intros (k & H). exists k. split.
    + unfold get. now rewrite H.
    + apply in_keys. congruence.
Qed.

(** ** Mutations in sequence *)

(** C10.  [signOut] always completes, and it leaves the column cache with its
    [isLoaded] flag, the post cache with [loadedColumns], the loading flag and
    the error slot as they were.  Outside the state it only removes the
    [token] item of localStorage and the [Authorization] default header. *)
Theorem signOut_frame (payload : json) (w : World) :
  exists w',
    mutations.signOut payload w = Ok w' /\
    columns (state w') = columns (state w) /\
    posts (state w') = posts (state w) /\
    loading (state w') = loading (state w) /\
    error (state w') = error (state w) /\
    (forall k, k <> "token" ->
       Dict.lookup k (localStorage w') = Dict.lookup k (localStorage w)) /\
    (forall h, h <> "Authorization" ->
       Dict.lookup h (headers_common w') = Dict.lookup h (headers_common w)) /\
    requests w' = requests w.
Proof.
  eexists. split; [reflexivity|]. simpl.
  repeat split; intros k Hk; rewrite lookup_delete;
    destruct (String.eqb_spec "token" k); destruct (String.eqb_spec "Authorization" k);
    congruence.
Qed.

(** C5.  From any world and for any login payload, [login] followed by
    [signOut] ends with the empty token, the user slot [{isLogin: false}] and
    nothing else in it, and no [Authorization] default header (nor a stored
    token). *)
Theorem login_then_signOut (rawData payload : json) (w : World) :
  let w2 := apply_mutation mutations.signOut payload
              (apply_mutation mutations.login rawData w) in
  mutations.signOut payload (apply_mutation mutations.login rawData w) = Ok w2 /\
  token (state w2) = JStr "" /\
  user (state w2) = JObj [("isLogin", JBool false)] /\
  Dict.lookup "Authorization" (headers_common w2) = None /\
  Dict.lookup "token" (localStorage w2) = None.
Proof.
  simpl. unfold apply_mutation at 1. simpl.
  repeat split; rewrite lookup_delete; reflexivity.
Qed.

(** ** Getters *)

Lemma filter_posts_spec (cid : string) (l : list json) :
  forallb (fun v => negb (nullish v)) l = true ->
  getters.filter_posts cid l =
  Ok (filter (fun p => strict_eq_str (member p "column") cid) l).
Proof.
  induction l as [|p r IH]; simpl; auto.
  intros H. apply andb_true_iff in H. destruct H as [Hp Hr].
  rewrite (IH Hr). unfold getters.in_column.
  destruct p; simpl in *; try discriminate; reflexivity.
Qed.

(** C7.  On a post cache whose entries are posts (no entry is undefined or
    null), [getPostsByCid cid] returns a list, and a value is in that list
    exactly when it is stored in the cache and its [column] is [cid]. *)
Theorem getPostsByCid_exact (s : GlobalDataProps) (cid : string) :
  entries_defined (posts_data (posts s)) = true ->
  exists l,
    getters.getPostsByCid s cid = Ok l /\
    forall post,
      In post l <->
      (exists k, Dict.lookup k (posts_data (posts s)) = Some post) /\
      member post "column" = JStr cid.
Proof.
  intros H. unfold entries_defined in H.
  unfold getters.getPostsByCid. rewrite (filter_posts_spec _ _ H).
  eexists. split; [reflexivity|].
  intros post. rewrite filter_In, in_objToArr.
  unfold strict_eq_str.
  split; intros [Hc Hcol]; split; auto.
  - destruct (member post "column"); try discriminate.
    apply String.eqb_eq in Hcol. now subst.
  - rewrite Hcol. apply String.eqb_refl.
Qed.

Lemma getPostsByCid_exact_witness :
  exists l,
    getters.getPostsByCid mixed_cache "c1" = Ok l /\
    forall post,
      In post l <->
      (exists k, Dict.lookup k (posts_data (posts mixed_cache)) = Some post) /\
      member post "column" = JStr "c1".
Proof.
  apply (getPostsByCid_exact mixed_cache "c1"). reflexivity.
Defined.

(** ** Commits and requests *)

Ltac crunch_bind H :=
  unfold bind in H;
  repeat match type of H with
         | context [match ?c with Ok _ => _ | Throw _ => _ end] =>
             destruct c eqn:?; try discriminate H
         end.

(* A mutation writes neither of the two logs. *)
Lemma mutation_logs (name : string) (m : Mutation) (payload : json) (w w' : World) :
  mutation_named name = Some m ->
  m payload w = Ok w' ->
  requests w' = requests w /\ committed w' = committed w.
Proof.
  unfold mutation_named.
  repeat match goal with
         | |- context [String.eqb name ?s] => destruct (String.eqb name s)
         end;
    intros Hm; inversion Hm; subst m; clear Hm; intros H;
    match type of H with
    | ?f _ _ = _ => unfold f in H
    end;
    crunch_bind H; inversion H; subst; auto.
Qed.

Lemma commit_ok (name : string) (payload : json) (w w' : World) :
  commit name payload w = Ok w' ->
  requests w' = requests w /\
  (w' = w \/ committed w' = (committed w ++ [(name, payload)])%list).
Proof.
  unfold commit. destruct (mutation_named name) as [m|] eqn:Hm.
  - intros H. crunch_bind H. inversion H; subst. simpl.
    destruct (mutation_logs _ _ _ _ _ Hm Heqr) as [-> ->]. auto.
  - intros H. inversion H; subst. auto.
Qed.

(* A commit of a registered mutation is the mutation followed by its record. *)
Lemma commit_registered (name : string) (m : Mutation) (payload : json) (w : World) :
  mutation_named name = Some m ->
  commit name payload w =
  (w' <- m payload w ;; Ok (log_commit name payload w')).
Proof. unfold commit. now intros ->. Qed.

Lemma same_store_log (r : Request) (w : World) : same_store w (log_request r w).
Proof. repeat split. Qed.

Lemma asyncAndCommit_inv (axios : Network) (url name : string)
    (cfg : AxiosRequestConfig) (extra : json) (w : World) :
  let req := request_of url cfg w in
  let res := asyncAndCommit axios url name cfg extra w in
  requests (snd res) = (requests w ++ [req])%list /\
  match axios (requests w) req with
  | Reject e => res = (Rejected (AxiosError e), log_request req w)
  | Resolve d =>
      match commit name (commit_payload d extra) (log_request req w) with
      | Ok w2 => res = (Resolved d, w2)
      | Throw e => res = (Rejected e, log_request req w)
      end
  end.
Proof.
  simpl. unfold asyncAndCommit, commit_payload.
  destruct (axios _ _) as [d|e]; simpl; auto.
  destruct (commit _ _ _) as [w2|e] eqn:Hc; simpl; auto.
  apply commit_ok in Hc. destruct Hc as [-> _]. auto.
Qed.

(* asyncAndCommit is an async function: whatever goes wrong inside it
   rejects its promise. *)
Lemma asyncAndCommit_not_thrown (axios : Network) (url name : string)
    (cfg : AxiosRequestConfig) (extra : json) (w w' : World) (e : exn) :
  asyncAndCommit axios url name cfg extra w <> (Thrown e, w').
Proof.
  unfold asyncAndCommit.
  destruct (axios _ _); [destruct (commit _ _ _)|]; discriminate.
Qed.

Lemma app_tail_inv {A} (l h r : list A) (x y : A) :
  (l ++ [x] = h ++ y :: r)%list -> length l <= length h ->
  h = l /\ y = x /\ r = [].
Proof.
  intros H Hlen.
  assert (Hr : r = []).
  { apply (f_equal (@length A)) in H. rewrite !length_app in H. simpl in H.
    destruct r; auto. simpl in H. lia. }
  subst r. apply app_inj_tail in H. intuition.
Qed.

Lemma no_new_request {A} (l h r : list A) (y : A) :
  l = (h ++ y :: r)%list -> length l <= length h -> False.
Proof.
  intros H Hlen. apply (f_equal (@length A)) in H.
  rewrite length_app in H. simpl in H. lia.
Qed.

(* A single call through asyncAndCommit: if a call of it fails, it is that
   call, nothing follows it, and the store is as before. *)
Lemma asyncAndCommit_failed (axios : Network) (url name : string)
    (cfg : AxiosRequestConfig) (extra : json) (w : World)
    (hist rest : list Request) (req : Request) (e : json) :
  requests (snd (asyncAndCommit axios url name cfg extra w)) = (hist ++ req :: rest)%list ->
  length (requests w) <= length hist ->
  axios hist req = Reject e ->
  rest = [] /\ hist = requests w /\
  asyncAndCommit axios url name cfg extra w =
    (Rejected (AxiosError e), log_request (request_of url cfg w) w).
Proof.
  intros Hreq Hlen Hfail.
  destruct (asyncAndCommit_inv axios url name cfg extra w) as [Hlog Hres].
  rewrite Hlog in Hreq. apply app_tail_inv in Hreq; auto.
  destruct Hreq as (-> & -> & ->). rewrite Hfail in Hres. auto.
Qed.

(** ** Cache entries are never undefined or null *)

Lemma entries_defined_iff (o : Dict.t json) :
  entries_defined o = true <->
  forall k v, Dict.lookup k o = Some v -> nullish v = false.
Proof.
  unfold entries_defined. rewrite forallb_forall. split.
  - intros H k v Hl. apply negb_true_iff. apply H. apply in_objToArr. eauto.
  - intros H v Hin. apply in_objToArr in Hin. destruct Hin as [k Hk].
    apply negb_true_iff. eauto.
Qed.

Lemma entries_defined_set (k : string) (v : json) (o : Dict.t json) :
  nullish v = false -> entries_defined o = true ->
  entries_defined (Dict.set k v o) = true.
Proof.
  rewrite !entries_defined_iff. intros Hv Ho k' v'. rewrite lookup_set.
  destruct (String.eqb k k'); [|apply Ho].
  intros H. inversion H; subst. exact Hv.
Qed.

Lemma entries_defined_delete (k : string) (o : Dict.t json) :
  entries_defined o = true -> entries_defined (Dict.delete k o) = true.
Proof.
  rewrite !entries_defined_iff. intros Ho k' v'. rewrite lookup_delete.
  destruct (String.eqb k k'); [discriminate | apply Ho].
Qed.

Lemma entries_defined_merge (a b : Dict.t json) :
  entries_defined a = true -> entries_defined b = true ->
  entries_defined (Dict.merge a b) = true.
Proof.
  rewrite !entries_defined_iff. intros Ha Hb k v. rewrite lookup_merge.
  destruct (Dict.lookup k b) eqn:E.
  - intros H. inversion H; subst. eauto.
  - apply Ha.
Qed.

Lemma getProp_Ok_defined (v x : json) (k : string) :
  getProp v k = Ok x -> nullish v = false.
Proof. destruct v; simpl; congruence. Qed.

Lemma arrToObj_from_defined (l : list json) (acc o : Dict.t json) :
  entries_defined acc = true -> arrToObj_from acc l = Ok o ->
  entries_defined o = true.
Proof.
  revert acc. induction l as [|x r IH]; simpl; intros acc Hacc H.
  - inversion H; subst. exact Hacc.
  - destruct (getProp x "_id") as [id|] eqn:E; simpl in H; [|discriminate].
    apply (IH _ (entries_defined_set _ _ _ (getProp_Ok_defined _ _ _ E) Hacc) H).
Qed.

Lemma mutation_keeps_posts_defined (name : string) (m : Mutation)
    (payload : json) (w w' : World) :
  mutation_named name = Some m ->
  entries_defined (posts_data (posts (state w))) = true ->
  m payload w = Ok w' ->
  entries_defined (posts_data (posts (state w'))) = true.
Proof.
  unfold mutation_named.
  repeat match goal with
         | |- context [String.eqb name ?s] => destruct (String.eqb name s)
         end;
    intros Hm; inversion Hm; subst m; clear Hm; intros Hw H;
    match type of H with
    | ?f _ _ = _ => unfold f in H
    end;
    crunch_bind H; inversion H; subst; simpl; auto;
    eauto using entries_defined_set, entries_defined_delete, getProp_Ok_defined.
  (* fetchPosts: the batch is merged into the cache *)
  apply entries_defined_merge; auto.
  match goal with
  | E : arrToObj ?l = Ok _ |- _ => destruct l; try discriminate E; simpl in E
  end.
  eapply arrToObj_from_defined; [|eassumption]. reflexivity.
Qed.

(** X2.  Whatever is committed, with whatever payload, the post cache never comes
    to hold an undefined or null entry: the getters can read every entry. *)
Theorem commit_keeps_posts_defined (name : string) (payload : json) (w w' : World) :
  entries_defined (posts_data (posts (state w))) = true ->
  commit name payload w = Ok w' ->
  entries_defined (posts_data (posts (state w'))) = true.
Proof.
  intros Hw. unfold commit. destruct (mutation_named name) as [m|] eqn:Hm.
  - intros H. crunch_bind H. inversion H; subst. simpl.
    eapply mutation_keeps_posts_defined; eauto.
  - intros H. inversion H; subst. exact Hw.
Qed.

Lemma initial_posts_defined (storage : Dict.t string) :
  entries_defined (posts_data (posts (state (initial_world storage)))) = true.
Proof. reflexivity. Qed.

(** ** Failing requests *)

(* The conclusion of the theorem below, for an action that makes at most one
   call. *)
Lemma one_call_failed (axios : Network) (res : Settled * World) (w : World)
    (hist rest : list Request) (req : Request) (e : json) :
  (res = (fst res, w) \/
   exists url name cfg extra, res = asyncAndCommit axios url name cfg extra w) ->
  requests (snd res) = (hist ++ req :: rest)%list ->
  length (requests w) <= length hist ->
  axios hist req = Reject e ->
  rest = [] /\ fst res = Rejected (AxiosError e) /\
  hist = requests w /\ same_store w (snd res).
Proof.
  intros [Hskip | (url & name & cfg & extra & Hcall)] Hreq Hlen Hfail.
  - rewrite Hskip in Hreq. simpl in Hreq.
    exfalso. eapply no_new_request; eauto.
  - subst res.
    destruct (asyncAndCommit_failed _ _ _ _ _ _ _ _ _ _ Hreq Hlen Hfail)
      as (-> & -> & ->).
    simpl. auto using same_store_log.
Qed.

(** C1, as stated, fails: in [loginAndFetch] the call to [/user/current] fails
    and its rejection reaches the caller, but the [login] mutation has run
    before it and the token of the store is no longer the one it started
    with. *)
Lemma failed_loginAndFetch_keeps_token :
  let w := initial_world [] in
  let res := dispatch profile_down (LoginAndFetch credentials) w in
  exists hist req,
    requests (snd res) = (hist ++ [req])%list /\
    r_url req = "/user/current" /\
    profile_down hist req = Reject (JStr "Network Error") /\
    fst res = Rejected (AxiosError (JStr "Network Error")) /\
    token (state w) = JStr "" /\
    token (state (snd res)) = JStr "t0k3n" /\
    state (snd res) <> state w /\
    committed (snd res) = [("login", login_response)].
Proof.
  eexists [_], _. cbv.
  repeat split. discriminate.
Qed.

(** C1, amended.  Whenever a request issued by an action fails, it is the last
    request of that action, the caller gets the rejection with the very reason
    of the failure, and the failed request applies no mutation: state, storage,
    default headers and the record of commits are those in which the request
    was issued.  For the first request of an action that is the world before
    the action; for the profile request of [loginAndFetch] it is the world
    left by the [login] that went before. *)
Theorem failed_call_applies_no_mutation (axios : Network) (a : Dispatch) (w : World)
    (hist rest : list Request) (req : Request) (e : json) :
  requests (snd (dispatch axios a w)) = (hist ++ req :: rest)%list ->
  length (requests w) <= length hist ->
  axios hist req = Reject e ->
  rest = [] /\
  fst (dispatch axios a w) = Rejected (AxiosError e) /\
  ((hist = requests w /\ same_store w (snd (dispatch axios a w))) \/
   (exists loginData d w1,
      a = LoginAndFetch loginData /\
      actions.login axios loginData w = (Resolved d, w1) /\
      hist = requests w1 /\
      same_store w1 (snd (dispatch axios a w)))).
Proof.
  intros Hreq Hlen Hfail.
  assert (Hone : forall res,
             res = dispatch axios a w ->
             (res = (fst res, w) \/
              exists url name cfg extra, res = asyncAndCommit axios url name cfg extra w) ->
             rest = [] /\ fst res = Rejected (AxiosError e) /\
             ((hist = requests w /\ same_store w (snd res)) \/
              (exists loginData d w1,
                 a = LoginAndFetch loginData /\
                 actions.login axios loginData w = (Resolved d, w1) /\
                 hist = requests w1 /\ same_store w1 (snd res)))).
  { intros res -> Hshape.
    destruct (one_call_failed _ _ _ _ _ _ _ Hshape Hreq Hlen Hfail)
      as (? & ? & ? & ?). auto. }
  destruct a;
    match goal with
    | |- context [dispatch _ (LoginAndFetch _) _] => idtac
    | _ => apply Hone; [reflexivity|]; simpl
    end.
  - unfold actions.fetchColumns.
    destruct (negb _); [|now left].
    destruct (getProp data0 "page"), (getProp data0 "size"); try now left.
    right. eauto.
  - unfold actions.fetchColumn. destruct (negb _); [right; eauto | now left].
  - unfold actions.fetchPosts. destruct (negb _); [right; eauto | now left].
  - unfold actions.fetchPost. destruct (_ || _); [right; eauto | now left].
  - right. unfold actions.fetchCurrentUser. eauto.
  - right. unfold actions.login. eauto.
  - (* loginAndFetch *)
    clear Hone. simpl in *. unfold actions.loginAndFetch in *.
    destruct (asyncAndCommit_inv axios "/user/login" "login"
                {| method := "post"; data := loginData |} JUndefined w)
      as [Hlog1 Hres1].
    fold (actions.login axios loginData) in Hlog1, Hres1.
    destruct (actions.login axios loginData w) as [[d|e1|e1] w1] eqn:Hlogin;
      simpl in Hlog1.
    + (* login resolved: the profile request follows *)
      destruct (asyncAndCommit_inv axios "/user/current" "fetchCurrentUser"
                  default_config JUndefined w1) as [Hlog2 Hres2].
      fold (actions.fetchCurrentUser axios) in Hlog2, Hres2.
      rewrite Hlog2 in Hreq.
      assert (Hlen1 : length (requests w) < length (requests w1))
        by (rewrite Hlog1, length_app; simpl; lia).
      destruct (Nat.le_gt_cases (length (requests w1)) (length hist)) as [Hge|Hlt].
      * apply app_tail_inv in Hreq; auto. destruct Hreq as (-> & -> & ->).
        rewrite Hfail in Hres2. rewrite Hres2. simpl.
        split; auto. split; auto. right.
        exists loginData, d, w1. auto using same_store_log.
      * (* the failing request would be the login request, which resolved *)
        exfalso. rewrite Hlog1 in Hreq, Hlt.
        rewrite <- app_assoc in Hreq. simpl in Hreq.
        assert (Hh : hist = requests w).
        { rewrite length_app in Hlt. simpl in Hlt.
          assert (Hl : length hist = length (requests w)) by lia.
          clear -Hreq Hl.
          revert hist Hreq Hl. induction (requests w) as [|x l IH];
            intros [|y h] Hreq Hl; simpl in *; try discriminate; auto.
          inversion Hreq; subst. f_equal. apply IH; auto. }
        subst hist. apply app_inv_head in Hreq. inversion Hreq; subst.
        rewrite Hfail in Hres1. inversion Hres1.
    + (* login rejected: the only request is the login request *)
      simpl in Hreq. rewrite Hlog1 in Hreq.
      apply app_tail_inv in Hreq; auto. destruct Hreq as (-> & -> & ->).
      rewrite Hfail in Hres1. inversion Hres1; subst.
      simpl. auto using same_store_log.
    + (* login is an async function: it does not throw *)
      exfalso. exact (asyncAndCommit_not_thrown _ _ _ _ _ _ _ _ Hlogin).
  - right. unfold actions.createPost. eauto.
  - unfold actions.updatePost. destruct (getProp arg "id"); [right; eauto | now left].
  - right. unfold actions.deletePost. eauto.
Qed.

Lemma failed_call_applies_no_mutation_witness :
  let w := initial_world [] in
  let res := dispatch profile_down (LoginAndFetch credentials) w in
  let login_req := request_of "/user/login" {| method := "post"; data := credentials |} w in
  let w1 := snd (actions.login profile_down credentials w) in
  let profile_req := request_of "/user/current" default_config w1 in
  (requests (snd res) = [login_req] ++ profile_req :: [] /\
   profile_down [login_req] profile_req = Reject (JStr "Network Error")) /\
  fst res = Rejected (AxiosError (JStr "Network Error")) /\
  same_store w1 (snd res).
Proof.
  intros w res login_req w1 profile_req.
  assert (H1 : requests (snd res) = [login_req] ++ profile_req :: []) by reflexivity.
  assert (H2 : length (requests w) <= length [login_req]) by (simpl; lia).
  assert (H3 : profile_down [login_req] profile_req = Reject (JStr "Network Error"))
    by reflexivity.
  split; [now split|].
  destruct (failed_call_applies_no_mutation profile_down (LoginAndFetch credentials)
              w [login_req] [] profile_req (JStr "Network Error") H1 H2 H3)
    as (_ & Hrej & Hstore).
  split; [exact Hrej|]. repeat split.
Defined.

(** ** The composite action *)

(** C4.  [loginAndFetch] starts with the [login] request.  If [login] is
    rejected, [loginAndFetch] is rejected with the same error in the same
    world: the login request is the only request made, and nothing was
    committed, so neither a [/user/current] request nor a [fetchCurrentUser]
    mutation happens.  If [login] is resolved, [login] has been committed and
    [fetchCurrentUser] runs next, in the world [login] left, its request being
    the second and last one. *)
Theorem loginAndFetch_sequencing (axios : Network) (loginData : json) (w : World) :
  let login_req :=
    request_of "/user/login" {| method := "post"; data := loginData |} w in
  match actions.login axios loginData w with
  | (Rejected e, w1) =>
      actions.loginAndFetch axios loginData w = (Rejected e, w1) /\
      requests w1 = (requests w ++ [login_req])%list /\
      same_store w w1
  | (Resolved d, w1) =>
      actions.loginAndFetch axios loginData w = actions.fetchCurrentUser axios w1 /\
      requests (snd (actions.loginAndFetch axios loginData w)) =
        (requests w ++ [login_req; request_of "/user/current" default_config w1])%list /\
      committed w1 = (committed w ++ [("login", d)])%list
  | (Thrown _, _) => False   (* login does not throw: it returns a promise *)
  end.
Proof.
  intros login_req. unfold actions.loginAndFetch.
  destruct (asyncAndCommit_inv axios "/user/login" "login"
              {| method := "post"; data := loginData |} JUndefined w)
    as [Hlog Hres].
  fold (actions.login axios loginData) in Hlog, Hres. fold login_req in Hlog, Hres.
  destruct (actions.login axios loginData w) as [[d|e|e] w1] eqn:Hlogin; simpl in Hlog;
    [| | exact (asyncAndCommit_not_thrown _ _ _ _ _ _ _ _ Hlogin)].
  - split; [reflexivity|].
    destruct (asyncAndCommit_inv axios "/user/current" "fetchCurrentUser"
                default_config JUndefined w1) as [Hlog2 _].
    fold (actions.fetchCurrentUser axios) in Hlog2.
    split.
    + rewrite Hlog2, Hlog, <- app_assoc. reflexivity.
    + destruct (axios (requests w) login_req) as [d0|e0]; [|discriminate].
      rewrite (commit_registered "login" mutations.login) in Hres by reflexivity.
      unfold bind in Hres.
      destruct (mutations.login _ _) as [w2|e2] eqn:Hm; [|discriminate].
      inversion Hres; subst. simpl.
      apply (mutation_logs "login") in Hm; [|reflexivity].
      destruct Hm as [_ ->]. reflexivity.
  - split; [reflexivity|]. split; [exact Hlog|].
    destruct (axios (requests w) login_req) as [d0|e0].
    + destruct (commit _ _ _); inversion Hres; subst. apply same_store_log.
    + inversion Hres; subst. apply same_store_log.
Qed.

(** ** What a resolved action hands back *)

(** C3, as stated, fails: with column c1 in the cache, [fetchColumn] makes no
    request and resolves with [undefined], although the remote side would have
    answered with an envelope. *)
Lemma memoized_fetchColumn_returns_undefined :
  dispatch serves_c1 (FetchColumn "c1") c1_cached = (Resolved JUndefined, c1_cached) /\
  requests c1_cached = [] /\
  serves_c1 [] (request_of "/columns/c1" default_config c1_cached)
    = Resolve (envelope column_c1) /\
  envelope column_c1 <> JUndefined.
Proof.
  repeat split. discriminate.
Qed.

Lemma asyncAndCommit_resolved (axios : Network) (url name : string)
    (cfg : AxiosRequestConfig) (extra : json) (w : World) (v : json) :
  fst (asyncAndCommit axios url name cfg extra w) = Resolved v ->
  axios (requests w) (request_of url cfg w) = Resolve v /\
  requests (snd (asyncAndCommit axios url name cfg extra w)) =
    requests w ++ [request_of url cfg w].
Proof.
  intros H.
  destruct (asyncAndCommit_inv axios url name cfg extra w) as [Hlog Hres].
  split; [|exact Hlog].
  destruct (axios (requests w) (request_of url cfg w)) as [d|e].
  - destruct (commit _ _ _); rewrite Hres in H; simpl in H; congruence.
  - rewrite Hres in H. discriminate.
Qed.

(** C3, amended.  When an action is resolved after having made a request, the
    value it hands to its caller is the raw body the remote side answered to
    the last request of the action.  When the guard of an action skipped the
    request, the world is untouched and the value is not a response:
    [fetchPost] resolves with the cached post wrapped as [{data: post}], and
    [fetchColumns], [fetchColumn] and [fetchPosts] resolve with [undefined]. *)
Theorem resolved_value (axios : Network) (a : Dispatch) (w : World) (v : json) :
  fst (dispatch axios a w) = Resolved v ->
  (exists hist req,
      requests (snd (dispatch axios a w)) = hist ++ [req] /\
      length (requests w) <= length hist /\
      axios hist req = Resolve v) \/
  (snd (dispatch axios a w) = w /\ memoized_value a w v).
Proof.
  assert (Hcall : forall url name cfg extra,
             fst (asyncAndCommit axios url name cfg extra w) = Resolved v ->
             exists hist req,
               requests (snd (asyncAndCommit axios url name cfg extra w)) = hist ++ [req] /\
               length (requests w) <= length hist /\
               axios hist req = Resolve v).
  { intros url name cfg extra H. apply asyncAndCommit_resolved in H.
    destruct H as [Hnet Hlog]. eauto. }
  destruct a; simpl.
  - unfold actions.fetchColumns. destruct (negb _).
    + destruct (getProp data0 "page"), (getProp data0 "size");
        simpl; try discriminate. left. auto.
    + simpl. intros H. inversion H. auto.
  - unfold actions.fetchColumn. destruct (negb _); simpl.
    + left. auto.
    + intros H. inversion H. auto.
  - unfold actions.fetchPosts. destruct (negb _); simpl.
    + left. auto.
    + intros H. inversion H. auto.
  - unfold actions.fetchPost.
    destruct (negb (truthy (get id (posts_data (posts (state w)))))) eqn:E1; simpl.
    + left. auto.
    + destruct (negb (truthy (member (get id (posts_data (posts (state w)))) "content")))
        eqn:E2; simpl.
      * left. auto.
      * intros H. inversion H. right. split; auto. split; auto.
        apply negb_false_iff in E2. exact E2.
  - unfold actions.fetchCurrentUser. left. auto.
  - unfold actions.login. left. auto.
  - (* loginAndFetch resolves with what fetchCurrentUser resolves with *)
    unfold actions.loginAndFetch.
    destruct (asyncAndCommit_inv axios "/user/login" "login"
                {| method := "post"; data := loginData |} JUndefined w) as [Hlog1 _].
    fold (actions.login axios loginData) in Hlog1.
    destruct (actions.login axios loginData w) as [[d|e|e] w1]; simpl in *;
      [|discriminate|discriminate].
    intros H. left. apply asyncAndCommit_resolved in H. destruct H as [Hnet Hlog2].
    exists (requests w1), (request_of "/user/current" default_config w1).
    unfold actions.fetchCurrentUser. rewrite Hlog2.
    repeat split; auto. rewrite Hlog1, length_app. lia.
  - unfold actions.createPost. left. auto.
  - unfold actions.updatePost. destruct (getProp arg "id"); simpl; [|discriminate].
    left. auto.
  - unfold actions.deletePost. left. auto.
Qed.

Lemma resolved_value_witness :
  let w := initial_world [] in
  fst (dispatch serves_c1 (FetchColumn "c1") w) = Resolved (envelope column_c1) /\
  ((exists hist req,
       requests (snd (dispatch serves_c1 (FetchColumn "c1") w)) = hist ++ [req] /\
       length (requests w) <= length hist /\
       serves_c1 hist req = Resolve (envelope column_c1)) \/
   (snd (dispatch serves_c1 (FetchColumn "c1") w) = w /\
    memoized_value (FetchColumn "c1") w (envelope column_c1))).
Proof.
  intros w.
  assert (H : fst (dispatch serves_c1 (FetchColumn "c1") w)
              = Resolved (envelope column_c1)) by reflexivity.
  split; [exact H|].
  exact (resolved_value serves_c1 (FetchColumn "c1") w (envelope column_c1) H).
Defined.

(** ** Memoized fetches of one entity *)

Lemma getProp_member (v : json) (k : string) :
  member v k <> JUndefined -> getProp v k = Ok (member v k).
Proof. destruct v; simpl; congruence. Qed.

Lemma getProp_object (v : json) (k : string) (o : list (string * json)) :
  member v k = JObj o -> getProp v k = Ok (JObj o).
Proof. intros H. rewrite getProp_member; rewrite H; congruence. Qed.

Lemma asyncAndCommit_resolve (axios : Network) (url name : string)
    (cfg : AxiosRequestConfig) (extra d : json) (w w2 : World) :
  axios (requests w) (request_of url cfg w) = Resolve d ->
  commit name (commit_payload d extra) (log_request (request_of url cfg w) w) = Ok w2 ->
  asyncAndCommit axios url name cfg extra w = (Resolved d, w2).
Proof.
  intros Hnet Hc.
  destruct (asyncAndCommit_inv axios url name cfg extra w) as [_ Hres].
  now rewrite Hnet, Hc in Hres.
Qed.

(** C2, as stated, fails: under the id ["constructor"] the guard of
    [fetchColumn] finds the function every plain object inherits, although
    the column cache is empty.  Both dispatches are resolved with
    [undefined] and no request is made, where the claim has exactly one; the
    remote side would have served the column. *)
Lemma fetchColumn_inherited_key_makes_no_request :
  let w := initial_world [] in
  let r1 := actions.fetchColumn serves_constructor "constructor" w in
  let r2 := actions.fetchColumn serves_constructor "constructor" (snd r1) in
  Dict.lookup "constructor" (columns_data (columns (state w))) = None /\
  serves_constructor (requests w) (get_request "/columns/constructor" w)
    = Resolve (envelope column_constructor) /\
  fst r1 = Resolved JUndefined /\
  fst r2 = Resolved JUndefined /\
  requests (snd r2) = [] /\
  length (requests (snd r2)) <> length (requests w) + 1.
Proof.
  repeat split. discriminate.
Qed.

(** C2, amended.  Take a column id under which the guard finds nothing in
    the column cache (no cached column, and no member that the cache
    inherits as a plain object), and a remote side that answers the request
    for it with the column of that id.  Then the first [fetchColumn] is
    resolved with that answer, the second one finds the column in the cache
    and is resolved without a request, and over the two dispatches exactly
    one request has been made. *)
Theorem fetchColumn_twice_one_request (axios : Network) (cid : string) (w : World)
    (rawData : json) (column : list (string * json)) :
  truthy (getters.getColumnById (state w) cid) = false ->
  axios (requests w) (get_request ("/columns/" ++ cid) w) = Resolve rawData ->
  member rawData "data" = JObj column ->
  Dict.lookup "_id" column = Some (JStr cid) ->
  let w1 := snd (actions.fetchColumn axios cid w) in
  let w2 := snd (actions.fetchColumn axios cid w1) in
  fst (actions.fetchColumn axios cid w) = Resolved rawData /\
  getters.getColumnById (state w1) cid = JObj column /\
  fst (actions.fetchColumn axios cid w1) = Resolved JUndefined /\
  requests w1 = requests w ++ [get_request ("/columns/" ++ cid) w] /\
  requests w2 = requests w ++ [get_request ("/columns/" ++ cid) w].
Proof.
  intros Hcold Hnet Hdata Hid.
  set (req := get_request ("/columns/" ++ cid) w) in *.
  assert (Hfirst : actions.fetchColumn axios cid w =
            (Resolved rawData,
             log_commit "fetchColumn" rawData
               (with_state (with_columns_data (Dict.set cid (JObj column)))
                  (log_request req w)))).
  { unfold actions.fetchColumn. unfold getters.getColumnById in Hcold.
    rewrite Hcold. simpl negb. cbv iota.
    apply asyncAndCommit_resolve; [exact Hnet|].
    rewrite (commit_registered "fetchColumn" mutations.fetchColumn) by reflexivity.
    unfold commit_payload, mutations.fetchColumn. simpl truthy. cbv iota.
    rewrite (getProp_object _ _ _ Hdata). simpl. rewrite Hid. reflexivity. }
  intros w1 w2. subst w2 w1. rewrite Hfirst. simpl fst. simpl snd.
  assert (Hwarm : getters.getColumnById
                    (state (log_commit "fetchColumn" rawData
                       (with_state (with_columns_data (Dict.set cid (JObj column)))
                          (log_request req w)))) cid = JObj column).
  { unfold getters.getColumnById. simpl. rewrite get_set.
    now rewrite String.eqb_refl. }
  split; [reflexivity|]. split; [exact Hwarm|].
  unfold actions.fetchColumn. unfold getters.getColumnById in Hwarm.
  rewrite Hwarm. simpl. auto.
Qed.

Lemma fetchColumn_twice_one_request_witness :
  let w := initial_world [] in
  let req := get_request "/columns/c1" w in
  let w1 := snd (actions.fetchColumn serves_c1 "c1" w) in
  let w2 := snd (actions.fetchColumn serves_c1 "c1" w1) in
  fst (actions.fetchColumn serves_c1 "c1" w) = Resolved (envelope column_c1) /\
  getters.getColumnById (state w1) "c1" = column_c1 /\
  fst (actions.fetchColumn serves_c1 "c1" w1) = Resolved JUndefined /\
  requests w1 = requests w ++ [req] /\
  requests w2 = requests w ++ [req].
Proof.
  intros w.
  apply (fetchColumn_twice_one_request serves_c1 "c1" w (envelope column_c1)
           [("_id", JStr "c1"); ("title", JStr "Rocq"); ("description", JStr "notes")]);
    reflexivity.
Defined.

(** C9.  Take a post id whose cache entry has no content, or an empty one,
    and a remote side that answers the request for it with the post of that
    id.  Then [fetchPost] does make the request, is resolved with the answer,
    and the cache entry of the id is the post of the answer as a whole, its
    content included; no other entry of the post cache changes. *)
Theorem fetchPost_replaces_stub (axios : Network) (id : string) (w : World)
    (stub rawData : json) (post : list (string * json)) :
  Dict.lookup id (posts_data (posts (state w))) = Some stub ->
  truthy (member stub "content") = false ->
  axios (requests w) (get_request ("/posts/" ++ id) w) = Resolve rawData ->
  member rawData "data" = JObj post ->
  Dict.lookup "_id" post = Some (JStr id) ->
  let res := actions.fetchPost axios id w in
  fst res = Resolved rawData /\
  requests (snd res) = requests w ++ [get_request ("/posts/" ++ id) w] /\
  getters.getCurrentPost (state (snd res)) id = JObj post /\
  member (getters.getCurrentPost (state (snd res)) id) "content"
    = member (member rawData "data") "content" /\
  (forall k, k <> id ->
     Dict.lookup k (posts_data (posts (state (snd res)))) =
     Dict.lookup k (posts_data (posts (state w)))).
Proof.
  intros Hstub Hempty Hnet Hdata Hid.
  set (req := get_request ("/posts/" ++ id) w) in *.
  assert (Hres : actions.fetchPost axios id w =
            (Resolved rawData,
             log_commit "fetchPost" rawData
               (with_state (with_posts_data (Dict.set id (JObj post)))
                  (log_request req w)))).
  { unfold actions.fetchPost, get. rewrite Hstub, Hempty.
    rewrite orb_true_r.
    apply asyncAndCommit_resolve; [exact Hnet|].
    rewrite (commit_registered "fetchPost" mutations.fetchPost) by reflexivity.
    unfold commit_payload, mutations.fetchPost. simpl truthy. cbv iota.
    rewrite (getProp_object _ _ _ Hdata). simpl. rewrite Hid. reflexivity. }
  intros res. subst res. rewrite Hres. simpl fst. simpl snd.
  assert (Hnew : getters.getCurrentPost
                   (state (log_commit "fetchPost" rawData
                      (with_state (with_posts_data (Dict.set id (JObj post)))
                         (log_request req w)))) id = JObj post).
  { unfold getters.getCurrentPost. simpl. rewrite get_set.
    now rewrite String.eqb_refl. }
  split; [reflexivity|]. split; [reflexivity|]. split; [exact Hnew|].
  split; [now rewrite Hnew, Hdata|].
  intros k Hk. simpl. apply lookup_set_neq. congruence.
Qed.

Lemma fetchPost_replaces_stub_witness :
  let req := get_request "/posts/p1" p1_stubbed in
  let res := actions.fetchPost serves_p1 "p1" p1_stubbed in
  fst res = Resolved (envelope (JObj full_p1)) /\
  requests (snd res) = requests p1_stubbed ++ [req] /\
  getters.getCurrentPost (state (snd res)) "p1" = JObj full_p1 /\
  member (getters.getCurrentPost (state (snd res)) "p1") "content"
    = member (member (envelope (JObj full_p1)) "data") "content" /\
  (forall k, k <> "p1" ->
     Dict.lookup k (posts_data (posts (state (snd res)))) =
     Dict.lookup k (posts_data (posts (state p1_stubbed)))).
Proof.
  apply (fetchPost_replaces_stub serves_p1 "p1" p1_stubbed stub_p1
           (envelope (JObj full_p1)) full_p1); reflexivity.
Defined.

(** ** Batches of posts *)

Lemma distinct_NoDup (l : list string) : distinct l = true -> NoDup l.
Proof.
  induction l as [|x r IH]; simpl; [constructor|].
  intros H. apply andb_true_iff in H. destruct H as [Hx Hr].
  constructor; auto.
  intros Hin. apply negb_true_iff in Hx.
  assert (existsb (String.eqb x) r = true); [|congruence].
  apply existsb_exists. exists x. split; auto. apply String.eqb_refl.
Qed.

Lemma lookup_in_NoDup {V} (l : list (string * V)) (k : string) (v : V) :
  NoDup (map fst l) -> In (k, v) l -> Dict.lookup k l = Some v.
Proof.
  induction l as [|[k1 v1] r IH]; simpl; [tauto|].
  intros Hnd [H|H]; inversion Hnd; subst.
  - inversion H; subst. now rewrite String.eqb_refl.
  - destruct (String.eqb k k1) eqn:E; auto.
    apply String.eqb_eq in E. subst k1.
    exfalso. apply H2. apply in_map_iff. now exists (k, v).
Qed.

Lemma lookup_not_in {V} (l : list (string * V)) (k : string) :
  ~ In k (map fst l) -> Dict.lookup k l = None.
Proof.
  induction l as [|[k1 v1] r IH]; simpl; auto.
  intros H. destruct (String.eqb k k1) eqn:E.
  - apply String.eqb_eq in E. subst. tauto.
  - apply IH. tauto.
Qed.

Lemma fst_keyed (l : list json) : map fst (keyed l) = map entity_key l.
Proof. unfold keyed. rewrite map_map. reflexivity. Qed.

Lemma is_entity_getProp (p : json) :
  is_entity p = true -> getProp p "_id" = Ok (member p "_id").
Proof.
  unfold is_entity. intros H. apply getProp_member.
  destruct (member p "_id"); discriminate || congruence.
Qed.

(* On server-shaped entities arrToObj files each element under its key. *)
Lemma arrToObj_from_entities (l : list json) (acc : Dict.t json) :
  forallb is_entity l = true ->
  arrToObj_from acc l =
  Ok (fold_left (fun a kv => Dict.set (fst kv) (snd kv) a) (keyed l) acc).
Proof.
  revert acc. induction l as [|p r IH]; intros acc H; simpl; auto.
  apply andb_true_iff in H. destruct H as [Hp Hr].
  rewrite (is_entity_getProp p Hp). simpl. now rewrite IH.
Qed.

Lemma includes_false (s : string) (l : list json) :
  includes s l = false <-> ~ In (JStr s) l.
Proof.
  unfold includes. induction l as [|x r IH]; simpl; [tauto|].
  rewrite orb_false_iff, IH. split.
  - intros [Hx Hr] [H|H]; auto. subst x. simpl in Hx.
    now rewrite String.eqb_refl in Hx.
  - intros H. split; [|tauto].
    destruct x; simpl; auto. destruct (String.eqb_spec s0 s); auto.
    subst. tauto.
Qed.

Lemma includes_true (s : string) (l : list json) :
  In (JStr s) l -> includes s l = true.
Proof.
  intros H. destruct (includes s l) eqn:E; auto.
  apply includes_false in E. tauto.
Qed.



(* The cache entry of a post after its batch has been filed. *)
Lemma lookup_filed (batch : list json) (p : json) :
  NoDup (map entity_key batch) -> In p batch ->
  Dict.lookup (entity_key p)
    (fold_left (fun a kv => Dict.set (fst kv) (snd kv) a) (keyed batch) Dict.empty)
  = Some p.
Proof.
  intros Hnd Hin. rewrite lookup_fold_set by now rewrite fst_keyed.
  rewrite (lookup_in_NoDup (keyed batch) (entity_key p) p); auto.
  - now rewrite fst_keyed.
  - unfold keyed. apply in_map_iff. now exists p.
Qed.

Lemma lookup_not_filed (batch : list json) (k : string) :
  ~ In k (map entity_key batch) ->
  Dict.lookup k
    (fold_left (fun a kv => Dict.set (fst kv) (snd kv) a) (keyed batch) Dict.empty)
  = None.
Proof.
  intros Hnot. rewrite <- fst_keyed in Hnot.
  assert (Hgen : forall acc,
             Dict.lookup k acc = None ->
             Dict.lookup k
               (fold_left (fun a kv => Dict.set (fst kv) (snd kv) a) (keyed batch) acc)
             = None).
  { induction (keyed batch) as [|[k1 v1] r IH]; simpl; auto.
    intros acc Hacc. simpl in Hnot. apply IH; [tauto|].
    rewrite lookup_set_neq; auto. }
  now apply Hgen.
Qed.



(** ** Cache keys *)

(** C8 fails on [createPost].  The [createPost] action commits the response
    envelope, as every action does, and the mutation reads [_id] on the
    envelope instead of on its [data]: the envelope has no [_id], so it is
    filed, whole, under the key ["undefined"], and the created post is not in
    the cache under its id.  The store started with empty caches. *)
Theorem createPost_files_envelope_under_undefined :
  let w := initial_world [] in
  let res := dispatch serves_created (CreatePost new_post) w in
  cache_invariant (state w) /\
  fst res = Resolved created /\
  committed (snd res) = [("createPost", created)] /\
  posts_data (posts (state (snd res))) = [("undefined"%string, created)] /\
  getters.getCurrentPost (state (snd res)) "p1" = JUndefined /\
  ~ cache_invariant (state (snd res)).
Proof.
  repeat split; try discriminate.
  intros [_ H]. specialize (H "undefined"%string created eq_refl). discriminate.
Qed.

(* The same on any payload without an [_id] of its own. *)
Lemma createPost_without_id (rawData : json) (w : World) :
  nullish rawData = false ->
  member rawData "_id" = JUndefined ->
  mutations.createPost rawData w =
  Ok (with_state (with_posts_data (Dict.set "undefined" rawData)) w).
Proof.
  intros Hn Hid. unfold mutations.createPost.
  assert (getProp rawData "_id" = Ok JUndefined) as ->
      by (destruct rawData; simpl in *; congruence).
  reflexivity.
Qed.

Lemma keys_are_ids_set (k : string) (v : json) (o : Dict.t json) :
  member v "_id" = JStr k -> keys_are_ids o -> keys_are_ids (Dict.set k v o).
Proof.
  intros Hv Ho k' v'. rewrite lookup_set.
  destruct (String.eqb_spec k k'); [|apply Ho].
  intros H. inversion H; subst. exact Hv.
Qed.

Lemma keys_are_ids_delete (k : string) (o : Dict.t json) :
  keys_are_ids o -> keys_are_ids (Dict.delete k o).
Proof.
  intros Ho k' v'. rewrite lookup_delete.
  destruct (String.eqb k k'); [discriminate | apply Ho].
Qed.

Lemma keys_are_ids_merge (a b : Dict.t json) :
  keys_are_ids a -> keys_are_ids b -> keys_are_ids (Dict.merge a b).
Proof.
  intros Ha Hb k v. rewrite lookup_merge.
  destruct (Dict.lookup k b) eqn:E.
  - intros H. inversion H; subst. now apply Hb.
  - apply Ha.
Qed.

Lemma is_entity_key (p : json) :
  is_entity p = true -> member p "_id" = JStr (entity_key p).
Proof.
  unfold is_entity, entity_key.
  destruct (member p "_id"); try discriminate. reflexivity.
Qed.

Lemma keys_are_ids_filed (batch : list json) (acc : Dict.t json) :
  forallb is_entity batch = true -> keys_are_ids acc ->
  keys_are_ids
    (fold_left (fun a kv => Dict.set (fst kv) (snd kv) a) (keyed batch) acc).
Proof.
  revert acc. induction batch as [|p r IH]; simpl; auto.
  intros acc H Hacc. apply andb_true_iff in H. destruct H as [Hp Hr].
  apply IH; auto. apply keys_are_ids_set; auto using is_entity_key.
Qed.

Lemma batch_shaped_arrToObj (rawData : json) :
  batch_shaped rawData = true ->
  exists l,
    forallb is_entity l = true /\
    getProp rawData "data" = Ok (member rawData "data") /\
    getProp (member rawData "data") "list" = Ok (JArr l) /\
    arrToObj (JArr l) =
      Ok (fold_left (fun a kv => Dict.set (fst kv) (snd kv) a) (keyed l) Dict.empty).
Proof.
  unfold batch_shaped.
  destruct (member (member rawData "data") "list") as [| | | | |l| |] eqn:E;
    try discriminate.
  intros H. exists l. split; auto. split; [|split].
  - apply getProp_member. intros E'. rewrite E' in E. discriminate.
  - rewrite getProp_member; rewrite E; congruence.
  - now apply arrToObj_from_entities.
Qed.

Lemma entity_getProps (payload : json) :
  is_entity (member payload "data") = true ->
  getProp payload "data" = Ok (member payload "data") /\
  getProp (member payload "data") "_id"
    = Ok (JStr (entity_key (member payload "data"))).
Proof.
  intros H. split.
  - apply getProp_member. intros E. rewrite E in H. discriminate.
  - rewrite is_entity_getProp by assumption. now rewrite is_entity_key.
Qed.

(** X1.  Apart from createPost, a mutation that is committed with a payload of the
    shape the API answers with completes and keeps the keys of both caches
    equal to the ids of the entities. *)
Theorem other_mutations_keep_keys (name : string) (payload : json) (w : World) :
  name <> "createPost"%string ->
  server_shaped name payload = true ->
  cache_invariant (state w) ->
  exists w', commit name payload w = Ok w' /\ cache_invariant (state w').
Proof.
  intros Hname Hshape [Hc Hp]. unfold commit, mutation_named, server_shaped in *.
  apply String.eqb_neq in Hname. rewrite Hname in *.
  repeat match goal with
         | |- context [String.eqb name ?s] =>
             let E := fresh "E" in
             destruct (String.eqb name s) eqn:E;
             [apply String.eqb_eq in E; subst name; simpl in Hshape |]
         end;
    try (eexists; split; [reflexivity | split; assumption]).
  - destruct (batch_shaped_arrToObj _ Hshape) as (l & Hl & Hd & Hlist & Harr).
    unfold mutations.fetchColumns. rewrite Hd. cbn [bind]. rewrite Hlist.
    cbn [bind]. rewrite Harr. cbn [bind].
    eexists; split; [reflexivity|]. split; simpl; auto.
    apply keys_are_ids_filed; auto. intros k v; discriminate.
  - destruct (entity_getProps _ Hshape) as [Hd Hid].
    unfold mutations.fetchColumn. rewrite Hd. cbn [bind]. rewrite Hid. cbn [bind].
    eexists; split; [reflexivity|]. split; simpl; auto.
    apply keys_are_ids_set; auto using is_entity_key.
  - destruct (batch_shaped_arrToObj _ Hshape) as (l & Hl & Hd & Hlist & Harr).
    unfold mutations.fetchPosts.
    assert (Hpay : getProp payload "data" = Ok (member payload "data")).
    { apply getProp_member. intros Hu. rewrite Hu in Hd. discriminate. }
    rewrite Hpay. cbn [bind].
    assert (Hextra : getProp payload "extraData" = Ok (member payload "extraData"))
      by (destruct payload; simpl in *; congruence).
    rewrite Hextra. cbn [bind]. rewrite Hd. cbn [bind]. rewrite Hlist. cbn [bind].
    rewrite Harr. cbn [bind].
    eexists; split; [reflexivity|]. split; simpl; auto.
    apply keys_are_ids_merge; auto.
    apply keys_are_ids_filed; auto. intros k v; discriminate.
  - destruct (entity_getProps _ Hshape) as [Hd Hid].
    unfold mutations.fetchPost. rewrite Hd. cbn [bind]. rewrite Hid. cbn [bind].
    eexists; split; [reflexivity|]. split; simpl; auto.
    apply keys_are_ids_set; auto using is_entity_key.
  - (* login *)
    apply negb_true_iff in Hshape.
    assert (Hd : getProp payload "data" = Ok (member payload "data"))
      by (apply getProp_member; intros Hu; rewrite Hu in Hshape; discriminate).
    assert (Ht : getProp (member payload "data") "token"
                 = Ok (member (member payload "data") "token"))
      by (destruct (member payload "data"); simpl in *; congruence).
    unfold mutations.login. rewrite Hd. cbn [bind]. rewrite Ht. cbn [bind].
    eexists; split; [reflexivity|]. split; simpl; auto.
  - (* fetchCurrentUser *)
    apply negb_true_iff in Hshape.
    assert (Hd : getProp payload "data" = Ok (member payload "data"))
      by (apply getProp_member; intros Hu; rewrite Hu in Hshape; discriminate).
    unfold mutations.fetchCurrentUser. rewrite Hd. cbn [bind].
    eexists; split; [reflexivity|]. split; simpl; auto.
  - destruct (entity_getProps _ Hshape) as [Hd Hid].
    unfold mutations.updatePost. rewrite Hd. cbn [bind]. rewrite Hid. cbn [bind].
    eexists; split; [reflexivity|]. split; simpl; auto.
    apply keys_are_ids_set; auto using is_entity_key.
  - destruct (entity_getProps _ Hshape) as [Hd Hid].
    unfold mutations.deletePost. rewrite Hd. cbn [bind]. rewrite Hid. cbn [bind].
    eexists; split; [reflexivity|]. split; simpl; auto.
    apply keys_are_ids_delete; auto.
Qed.

Lemma other_mutations_keep_keys_witness :
  exists w',
    commit "fetchColumn" (envelope column_c1) (initial_world []) = Ok w' /\
    cache_invariant (state w').
Proof.
  apply (other_mutations_keep_keys "fetchColumn" (envelope column_c1) (initial_world [])).
  - discriminate.
  - reflexivity.
  - split; intros k v H; discriminate H.
Defined.

Lemma commit_keeps_posts_defined_witness :
  exists w',
    commit "fetchPost" (envelope (JObj full_p1)) p1_stubbed = Ok w' /\
    entries_defined (posts_data (posts (state w'))) = true.
Proof.
  eexists. split; [reflexivity|].
  eapply (commit_keeps_posts_defined "fetchPost" (envelope (JObj full_p1)) p1_stubbed);
    reflexivity.
Defined.

(** ** Committing the same payload again *)

Section DictAlgebra.
Context {V : Type}.
Implicit Types (o a b : Dict.t V) (k : string) (v : V).

Lemma set_set_same k v o : Dict.set k v (Dict.set k v o) = Dict.set k v o.
Proof.
  induction o as [|[k' v'] r IH]; simpl.
  - now rewrite String.eqb_refl.
  - destruct (String.eqb k k') eqn:E; simpl.
    + now rewrite String.eqb_refl.
    + now rewrite E, IH.
Qed.

Lemma delete_delete k o : Dict.delete k (Dict.delete k o) = Dict.delete k o.
Proof.
  induction o as [|[k' v'] r IH]; simpl; auto.
  destruct (String.eqb k k') eqn:E; simpl; auto.
  now rewrite E, IH.
Qed.

(* Writing a property with the value it has changes nothing. *)
Lemma set_same k v o : Dict.lookup k o = Some v -> Dict.set k v o = o.
Proof.
  induction o as [|[k' v'] r IH]; simpl; [discriminate|].
  destruct (String.eqb k k') eqn:E.
  - apply String.eqb_eq in E. intros H. inversion H; subst. reflexivity.
  - intros H. now rewrite IH.
Qed.

Lemma fold_set_noop (l : list (string * V)) o :
  (forall k v, In (k, v) l -> Dict.lookup k o = Some v) ->
  fold_left (fun acc kv => Dict.set (fst kv) (snd kv) acc) l o = o.
Proof.
  induction l as [|[k v] r IH]; simpl; auto.
  intros H. rewrite set_same by (apply H; now left).
  apply IH. intros k' v' Hin. apply H. now right.
Qed.

(* { ...{ ...a, ...b }, ...b } is { ...a, ...b } *)
Lemma merge_merge a b : Dict.merge (Dict.merge a b) b = Dict.merge a b.
Proof.
  unfold Dict.merge at 1. apply fold_set_noop.
  intros k v Hin. rewrite lookup_merge.
  apply in_entries in Hin. now rewrite Hin.
Qed.

End DictAlgebra.

Ltac replay_bind :=
  cbn [bind];
  repeat match goal with
         | E : ?c = Ok _ |- context [bind ?c _] => rewrite E; cbn [bind]
         end.

Lemma mutation_idempotent (name : string) (m : Mutation) (payload : json)
    (w w1 : World) :
  name <> "fetchPosts"%string ->
  mutation_named name = Some m ->
  m payload w = Ok w1 ->
  m payload w1 = Ok w1.
Proof.
  intros Hname. unfold mutation_named.
  repeat match goal with
         | |- context [String.eqb name ?s] =>
             let E := fresh "E" in
             destruct (String.eqb name s) eqn:E;
             [apply String.eqb_eq in E|]
         end;
    intros Hm; inversion Hm; subst m; clear Hm; try congruence; intros H;
    match type of H with
    | ?f _ _ = _ => unfold f in H |- *
    end;
    crunch_bind H; inversion H; subst; clear H; replay_bind;
    unfold with_state, with_posts_data, with_columns_data, with_posts, with_columns;
    simpl; rewrite ?set_set_same, ?delete_delete; reflexivity.
Qed.

(* A mutation does not look at the record of commits. *)
Lemma mutation_log_commit (name n : string) (m : Mutation) (payload q : json)
    (w w' : World) :
  mutation_named name = Some m ->
  m payload w = Ok w' ->
  m payload (log_commit n q w) = Ok (log_commit n q w').
Proof.
  unfold mutation_named.
  repeat match goal with
         | |- context [String.eqb name ?s] => destruct (String.eqb name s)
         end;
    intros Hm; inversion Hm; subst m; clear Hm; intros H;
    match type of H with
    | ?f _ _ = _ => unfold f in H |- *
    end;
    crunch_bind H; inversion H; subst; clear H; replay_bind; reflexivity.
Qed.

(** X3.  Every mutation but [fetchPosts] is idempotent: committing it a second time
    with the same payload completes again and leaves the state, the storage
    and the default headers as the first commit left them. *)
Theorem commit_twice_same_state (name : string) (payload : json) (w w1 : World) :
  name <> "fetchPosts"%string ->
  commit name payload w = Ok w1 ->
  exists w2,
    commit name payload w1 = Ok w2 /\
    state w2 = state w1 /\
    localStorage w2 = localStorage w1 /\
    headers_common w2 = headers_common w1.
Proof.
  intros Hname. unfold commit.
  destruct (mutation_named name) as [m|] eqn:Hm.
  - intros H. crunch_bind H. inversion H; subst; clear H.
    pose proof (mutation_idempotent _ _ _ _ _ Hname Hm Heqr) as Hagain.
    rewrite (mutation_log_commit _ name _ _ payload _ _ Hm Hagain).
    cbn [bind]. eexists. split; [reflexivity|]. auto.
  - intros H. inversion H; subst. eauto.
Qed.

Lemma commit_twice_same_state_witness :
  let p := envelope (JObj full_p1) in
  let w1 := log_commit "updatePost" p (apply_mutation mutations.updatePost p p1_stubbed) in
  commit "updatePost" p p1_stubbed = Ok w1 /\
  exists w2, commit "updatePost" p w1 = Ok w2 /\ state w2 = state w1.
Proof.
  intros p w1.
  assert (H1 : commit "updatePost" p p1_stubbed = Ok w1) by reflexivity.
  split; [exact H1|].
  destruct (commit_twice_same_state "updatePost" p p1_stubbed w1
              ltac:(discriminate) H1) as (w2 & H2 & Hs & _).
  exists w2. auto.
Defined.

(** X4.  Committing [fetchPosts] a second time with the same payload is not
    guarded by the mutation: the post cache is the one the first commit left,
    but the column id of the payload is appended to [loadedColumns] once
    more. *)
Theorem fetchPosts_commit_twice (payload : json) (w w1 : World) :
  commit "fetchPosts" payload w = Ok w1 ->
  exists w2,
    commit "fetchPosts" payload w1 = Ok w2 /\
    posts_data (posts (state w2)) = posts_data (posts (state w1)) /\
    loadedColumns (posts (state w2)) =
      loadedColumns (posts (state w))
        ++ [member payload "extraData"; member payload "extraData"].
Proof.
  rewrite (commit_registered "fetchPosts" mutations.fetchPosts) by reflexivity.
  intros H. crunch_bind H. inversion H; subst; clear H.
  rewrite (commit_registered "fetchPosts" mutations.fetchPosts) by reflexivity.
  rewrite (mutation_log_commit "fetchPosts" "fetchPosts" mutations.fetchPosts
             payload payload a
             (with_state (with_posts (fun p =>
                {| posts_data := posts_data p;
                   loadedColumns := loadedColumns p ++ [member payload "extraData"] |}))
                a) eq_refl).
  - cbn [bind]. eexists. split; [reflexivity|].
    unfold mutations.fetchPosts in Heqr. crunch_bind Heqr.
    inversion Heqr; subst; clear Heqr. simpl.
    split; [reflexivity|]. rewrite <- app_assoc.
    assert (a1 = member payload "extraData") as ->
        by (destruct payload; simpl in *; congruence).
    reflexivity.
  - unfold mutations.fetchPosts in Heqr |- *. crunch_bind Heqr.
    inversion Heqr; subst; clear Heqr. replay_bind.
    unfold with_state, with_posts. simpl. rewrite merge_merge.
    assert (a1 = member payload "extraData") as ->
        by (destruct payload; simpl in *; congruence).
    reflexivity.
Qed.

Lemma fetchPosts_commit_twice_witness :
  let p := JObj [("data", envelope (JObj [("list", JArr posts_cA)]));
                 ("extraData", JStr "cA")] in
  let w1 := log_commit "fetchPosts" p
              (apply_mutation mutations.fetchPosts p (initial_world [])) in
  commit "fetchPosts" p (initial_world []) = Ok w1 /\
  exists w2,
    commit "fetchPosts" p w1 = Ok w2 /\
    posts_data (posts (state w2)) = posts_data (posts (state w1)) /\
    loadedColumns (posts (state w2)) = [JStr "cA"; JStr "cA"].
Proof.
  intros p w1.
  assert (H1 : commit "fetchPosts" p (initial_world []) = Ok w1) by reflexivity.
  split; [exact H1|].
  destruct (fetchPosts_commit_twice p (initial_world []) w1 H1) as (w2 & H2 & Hd & Hl).
  exists w2. auto.
Defined.

(** ** What a commit can remove *)

Lemma mutation_keeps_keys (name : string) (m : Mutation) (payload : json)
    (w w' : World) :
  mutation_named name = Some m ->
  m payload w = Ok w' ->
  (name <> "deletePost"%string ->
   forall k, Dict.lookup k (posts_data (posts (state w))) <> None ->
             Dict.lookup k (posts_data (posts (state w'))) <> None) /\
  (name <> "fetchColumns"%string ->
   forall k, Dict.lookup k (columns_data (columns (state w))) <> None ->
             Dict.lookup k (columns_data (columns (state w'))) <> None).
Proof.
  unfold mutation_named.
  repeat match goal with
         | |- context [String.eqb name ?s] =>
             let E := fresh "E" in
             destruct (String.eqb name s) eqn:E;
             [apply String.eqb_eq in E|]
         end;
    intros Hm; inversion Hm; subst m; clear Hm; intros H;
    match type of H with
    | ?f _ _ = _ => unfold f in H
    end;
    crunch_bind H; inversion H; subst; clear H; simpl;
    (split; intros Hname k Hk; try congruence; auto);
    try (rewrite lookup_set; destruct (String.eqb _ k); congruence).
  rewrite lookup_merge. destruct (Dict.lookup k a3); congruence.
Qed.

(** X5.  A commit removes an entry of the post cache only if it is [deletePost],
    and an entry of the column cache only if it is [fetchColumns]: under any
    other mutation, with any payload, every id that was cached is still
    cached. *)
Theorem commit_keeps_cached_ids (name : string) (payload : json) (w w' : World) :
  commit name payload w = Ok w' ->
  (name <> "deletePost"%string ->
   forall k, Dict.lookup k (posts_data (posts (state w))) <> None ->
             Dict.lookup k (posts_data (posts (state w'))) <> None) /\
  (name <> "fetchColumns"%string ->
   forall k, Dict.lookup k (columns_data (columns (state w))) <> None ->
             Dict.lookup k (columns_data (columns (state w'))) <> None).
Proof.
  unfold commit. destruct (mutation_named name) as [m|] eqn:Hm.
  - intros H. crunch_bind H. inversion H; subst; clear H. simpl.
    eapply mutation_keeps_keys; eauto.
  - intros H. inversion H; subst. auto.
Qed.

Lemma commit_keeps_cached_ids_witness :
  let p := JObj [("data", envelope (JObj [("list", JArr posts_cA)]));
                 ("extraData", JStr "cA")] in
  let w' := log_commit "fetchPosts" p
              (apply_mutation mutations.fetchPosts p p1_stubbed) in
  commit "fetchPosts" p p1_stubbed = Ok w' /\
  Dict.lookup "p1" (posts_data (posts (state w'))) <> None.
Proof.
  intros p w'.
  assert (H : commit "fetchPosts" p p1_stubbed = Ok w') by reflexivity.
  split; [exact H|].
  apply (proj1 (commit_keeps_cached_ids "fetchPosts" p p1_stubbed w' H));
    discriminate.
Defined.

(** ** The list of columns *)

(** X6.  [fetchColumns], committed with a page of server-shaped columns with
    distinct ids, replaces the column cache: every column of the page is
    cached under its id, the cache has no own entry under any other key any
    more, [isLoaded] is set, and the post cache is untouched. *)
Theorem fetchColumns_replaces_cache (rawData : json) (l : list json) (w : World) :
  member (member rawData "data") "list" = JArr l ->
  forallb is_entity l = true ->
  distinct (map entity_key l) = true ->
  exists w',
    commit "fetchColumns" rawData w = Ok w' /\
    isLoaded (columns (state w')) = true /\
    (forall c, In c l -> getters.getColumnById (state w') (entity_key c) = c) /\
    (forall k, ~ In k (map entity_key l) ->
       Dict.lookup k (columns_data (columns (state w'))) = None) /\
    posts (state w') = posts (state w).
Proof.
  intros Hlist Hent Hdist. apply distinct_NoDup in Hdist.
  rewrite (commit_registered "fetchColumns" mutations.fetchColumns) by reflexivity.
  unfold mutations.fetchColumns.
  rewrite (getProp_member rawData "data")
    by (intros E; rewrite E in Hlist; discriminate).
  cbn [bind].
  rewrite (getProp_member _ "list") by (rewrite Hlist; discriminate).
  rewrite Hlist. cbn [bind]. unfold arrToObj.
  rewrite (arrToObj_from_entities _ _ Hent). cbn [bind].
  eexists. split; [reflexivity|]. simpl.
  unfold getters.getColumnById, get. simpl.
  repeat split.
  - intros c Hin. now rewrite lookup_filed.
  - intros k Hk. now rewrite lookup_not_filed.
Qed.

Lemma fetchColumns_replaces_cache_witness :
  exists w',
    commit "fetchColumns" (envelope (JObj [("list", JArr [column_c1])])) c1_cached
      = Ok w' /\
    getters.getColumnById (state w') "c1" = column_c1 /\
    Dict.lookup "c2" (columns_data (columns (state w'))) = None.
Proof.
  destruct (fetchColumns_replaces_cache
              (envelope (JObj [("list", JArr [column_c1])])) [column_c1] c1_cached
              eq_refl eq_refl eq_refl) as (w' & Hc & _ & Hin & Hout & _).
  exists w'. split; [exact Hc|]. split.
  - apply (Hin column_c1). now left.
  - apply Hout. simpl. intros [H|[]]. discriminate.
Defined.

(** ** The current user and the token *)

Lemma getProp_defined (v : json) (k : string) :
  nullish v = false -> getProp v k = Ok (member v k).
Proof. destruct v; simpl; congruence. Qed.

Lemma getProp_nullish (v : json) (k : string) :
  nullish v = true -> getProp v k = Throw TypeError.
Proof. destruct v; simpl; congruence. Qed.

Lemma getProp_Ok_member (v x : json) (k : string) :
  getProp v k = Ok x -> x = member v k.
Proof. destruct v; simpl; congruence. Qed.

(* Split every bind of the hypotheses on its outcome, keeping the successes. *)
Ltac crunch_binds :=
  unfold bind in *;
  repeat match goal with
         | H : context [match ?c with Ok _ => _ | Throw _ => _ end] |- _ =>
             destruct c eqn:?; try discriminate
         end;
  repeat match goal with
         | H : Ok _ = Ok _ |- _ => inversion H; subst; clear H
         end.

(* Name the values read by the property accesses that succeeded. *)
Ltac name_members :=
  repeat match goal with
         | E : getProp ?v ?k = Ok ?x |- _ =>
             is_var x; apply getProp_Ok_member in E; subst x
         end.

(** X7.  [fetchCurrentUser] completes on every payload that is not undefined or
    null.  When the [data] of the payload is an object, the user slot gets
    every field of it, and [isLogin] is [true] unless the object has an
    [isLogin] of its own, which then wins.  When the payload has no [data]
    (undefined or null) the user is still marked as logged in, with no other
    field.  Nothing else in the state changes. *)
Theorem fetchCurrentUser_profile (rawData : json) (w : World) :
  nullish rawData = false ->
  exists w',
    commit "fetchCurrentUser" rawData w = Ok w' /\
    (forall o, member rawData "data" = JObj o ->
       forall k,
         member (user (state w')) k =
         match Dict.lookup k o with
         | Some v => v
         | None => if String.eqb k "isLogin" then JBool true else JUndefined
         end) /\
    (nullish (member rawData "data") = true ->
       user (state w') = JObj [("isLogin"%string, JBool true)]) /\
    token (state w') = token (state w) /\
    columns (state w') = columns (state w) /\
    posts (state w') = posts (state w).
Proof.
  intros Hdef.
  rewrite (commit_registered "fetchCurrentUser" mutations.fetchCurrentUser)
    by reflexivity.
  unfold mutations.fetchCurrentUser. rewrite (getProp_defined _ _ Hdef).
  cbn [bind]. eexists. split; [reflexivity|]. simpl.
  repeat split.
  - intros o Ho k. rewrite Ho. simpl. rewrite lookup_merge, lookup_entries.
    destruct (Dict.lookup k o); auto. simpl.
    now destruct (String.eqb k "isLogin").
  - intros Hn. destruct (member rawData "data"); try discriminate; reflexivity.
Qed.

Lemma fetchCurrentUser_profile_witness :
  exists w',
    commit "fetchCurrentUser"
      (envelope (JObj [("nickName", JStr "viking"); ("isLogin", JBool false)]))
      (initial_world []) = Ok w' /\
    member (user (state w')) "isLogin" = JBool false /\
    member (user (state w')) "nickName" = JStr "viking".
Proof.
  destruct (fetchCurrentUser_profile
              (envelope (JObj [("nickName", JStr "viking"); ("isLogin", JBool false)]))
              (initial_world []) eq_refl) as (w' & Hc & Hobj & _).
  exists w'. split; [exact Hc|].
  split; [apply (Hobj _ eq_refl "isLogin"%string) | apply (Hobj _ eq_refl "nickName"%string)].
Defined.

(** X8.  When [login] completes, the token of the response is in the state, its
    string form is stored under [token] in localStorage and, behind
    ["Bearer "], in the [Authorization] default header; a store created
    afterwards from that storage starts with the stored string as its token.
    This holds for whatever the response carries as token: without a token
    the stored string is ["undefined"].  User, caches and flags are
    untouched. *)
Theorem login_persists_token (rawData : json) (w w' : World) :
  commit "login" rawData w = Ok w' ->
  let tok := member (member rawData "data") "token" in
  token (state w') = tok /\
  Dict.lookup "token" (localStorage w') = Some (toString tok) /\
  Dict.lookup "Authorization" (headers_common w') = Some ("Bearer " ++ toString tok)%string /\
  token (initial_state (localStorage w')) = JStr (toString tok) /\
  user (state w') = user (state w) /\
  columns (state w') = columns (state w) /\
  posts (state w') = posts (state w).
Proof.
  rewrite (commit_registered "login" mutations.login) by reflexivity.
  intros H. unfold mutations.login in H. crunch_binds. name_members.
  unfold initial_state, log_commit.
  cbn [state token user columns posts localStorage headers_common].
  rewrite !lookup_set_eq. repeat split.
Qed.

Lemma login_persists_token_witness :
  let w' := log_commit "login" login_response
              (apply_mutation mutations.login login_response (initial_world [])) in
  commit "login" login_response (initial_world []) = Ok w' /\
  token (state w') = JStr "t0k3n" /\
  Dict.lookup "Authorization" (headers_common w') = Some "Bearer t0k3n"%string /\
  token (initial_state (localStorage w')) = JStr "t0k3n".
Proof.
  intros w'.
  assert (H : commit "login" login_response (initial_world []) = Ok w') by reflexivity.
  split; [exact H|].
  destruct (login_persists_token login_response (initial_world []) w' H)
    as (Ht & _ & Hh & Hr & _).
  auto.
Defined.

(** ** What actions leave alone *)

Lemma mutation_frame (name : string) (m : Mutation) (payload : json) (w w' : World) :
  mutation_named name = Some m ->
  m payload w = Ok w' ->
  frame name w w'.
Proof.
  unfold mutation_named.
  repeat match goal with
         | |- context [String.eqb name ?s] =>
             let E := fresh "E" in
             destruct (String.eqb name s) eqn:E;
             [apply String.eqb_eq in E|]
         end;
    intros Hm; inversion Hm; subst m; clear Hm; intros H;
    match type of H with
    | ?f _ _ = _ => unfold f in H
    end;
    crunch_binds; unfold frame; simpl;
    repeat split; intros; try reflexivity; congruence.
Qed.

Lemma commit_frame (name : string) (payload : json) (w w' : World) :
  commit name payload w = Ok w' -> frame name w w'.
Proof.
  unfold commit. destruct (mutation_named name) as [m|] eqn:Hm.
  - intros H. crunch_binds.
    match goal with
    | E : m payload w = Ok ?a |- _ => apply (mutation_frame _ _ _ _ _ Hm) in E
    end.
    assumption.
  - intros H. inversion H; subst. unfold frame. repeat split.
Qed.

Lemma frame_refl (name : string) (w : World) : frame name w w.
Proof. unfold frame. repeat split. Qed.

Lemma asyncAndCommit_frame (axios : Network) (url name : string)
    (cfg : AxiosRequestConfig) (extra : json) (w : World) :
  frame name w (snd (asyncAndCommit axios url name cfg extra w)).
Proof.
  destruct (asyncAndCommit_inv axios url name cfg extra w) as [_ Hres].
  destruct (axios _ _) as [d|e].
  - destruct (commit _ _ _) as [w2|e] eqn:Hc; rewrite Hres; simpl.
    + exact (commit_frame _ _ _ _ Hc).
    + exact (frame_refl name w).
  - rewrite Hres. exact (frame_refl name w).
Qed.

Ltac use_frame F :=
  unfold frame in F;
  let Fl := fresh "Fl" in let Fe := fresh "Fe" in let Ft := fresh "Ft" in
  let Fu := fresh "Fu" in let Fc := fresh "Fc" in let Fp := fresh "Fp" in
  destruct F as (Fl & Fe & Ft & Fu & Fc & Fp);
  try specialize (Fl ltac:(discriminate));
  try specialize (Fe ltac:(discriminate));
  try specialize (Ft ltac:(discriminate) ltac:(discriminate));
  try specialize (Fu ltac:(discriminate) ltac:(discriminate));
  try specialize (Fc ltac:(discriminate) ltac:(discriminate));
  try specialize (Fp ltac:(discriminate) ltac:(discriminate) ltac:(discriminate)
                     ltac:(discriminate) ltac:(discriminate)).

(** X9.  No action ever writes the loading flag or the error slot.  Beyond that,
    the fetches of columns leave token, storage, default headers, user and
    post cache alone; the post actions leave token, storage, default headers,
    user and column cache alone; [login] leaves user and caches alone;
    [fetchCurrentUser] leaves token, storage, default headers and caches
    alone; [loginAndFetch] leaves the caches alone.  This holds whether the
    action is resolved or rejected. *)
Theorem dispatch_frame (axios : Network) (a : Dispatch) (w : World) :
  let w' := snd (dispatch axios a w) in
  loading (state w') = loading (state w) /\
  error (state w') = error (state w) /\
  match a with
  | Login _ =>
      user (state w') = user (state w) /\
      columns (state w') = columns (state w) /\
      posts (state w') = posts (state w)
  | FetchCurrentUser =>
      token (state w') = token (state w) /\
      localStorage w' = localStorage w /\
      headers_common w' = headers_common w /\
      columns (state w') = columns (state w) /\
      posts (state w') = posts (state w)
  | LoginAndFetch _ =>
      columns (state w') = columns (state w) /\
      posts (state w') = posts (state w)
  | FetchColumns _ | FetchColumn _ =>
      token (state w') = token (state w) /\
      localStorage w' = localStorage w /\
      headers_common w' = headers_common w /\
      user (state w') = user (state w) /\
      posts (state w') = posts (state w)
  | FetchPosts _ | FetchPost _ | CreatePost _ | UpdatePost _ | DeletePost _ =>
      token (state w') = token (state w) /\
      localStorage w' = localStorage w /\
      headers_common w' = headers_common w /\
      user (state w') = user (state w) /\
      columns (state w') = columns (state w)
  end.
Proof.
  destruct a; simpl.
  - unfold actions.fetchColumns. destruct (negb _); [|simpl; tauto].
    destruct (getProp data0 "page"), (getProp data0 "size"); try (simpl; tauto).
    match goal with
    | |- context [asyncAndCommit ?ax ?u ?n ?c ?e w] =>
        pose proof (asyncAndCommit_frame ax u n c e w) as F
    end.
    use_frame F. intuition.
  - unfold actions.fetchColumn. destruct (negb _); [|simpl; tauto].
    match goal with
    | |- context [asyncAndCommit ?ax ?u ?n ?c ?e w] =>
        pose proof (asyncAndCommit_frame ax u n c e w) as F
    end.
    use_frame F. intuition.
  - unfold actions.fetchPosts. destruct (negb _); [|simpl; tauto].
    match goal with
    | |- context [asyncAndCommit ?ax ?u ?n ?c ?e w] =>
        pose proof (asyncAndCommit_frame ax u n c e w) as F
    end.
    use_frame F. intuition.
  - unfold actions.fetchPost. destruct (_ || _); [|simpl; tauto].
    match goal with
    | |- context [asyncAndCommit ?ax ?u ?n ?c ?e w] =>
        pose proof (asyncAndCommit_frame ax u n c e w) as F
    end.
    use_frame F. intuition.
  - unfold actions.fetchCurrentUser.
    pose proof (asyncAndCommit_frame axios "/user/current" "fetchCurrentUser"
                  default_config JUndefined w) as F.
    use_frame F. intuition.
  - unfold actions.login.
    pose proof (asyncAndCommit_frame axios "/user/login" "login"
                  {| method := "post"; data := payload |} JUndefined w) as F.
    use_frame F. intuition.
  - unfold actions.loginAndFetch.
    pose proof (asyncAndCommit_frame axios "/user/login" "login"
                  {| method := "post"; data := loginData |} JUndefined w) as F.
    fold (actions.login axios loginData) in F.
    destruct (actions.login axios loginData w) as [[d|e|e] w1]; simpl in F.
    + pose proof (asyncAndCommit_frame axios "/user/current" "fetchCurrentUser"
                    default_config JUndefined w1) as F2.
      fold (actions.fetchCurrentUser axios) in F2.
      use_frame F. use_frame F2. simpl. intuition congruence.
    + use_frame F. simpl. intuition.
    + use_frame F. simpl. intuition.
  - unfold actions.createPost.
    pose proof (asyncAndCommit_frame axios "/posts" "createPost"
                  {| method := "post"; data := payload |} JUndefined w) as F.
    use_frame F. intuition.
  - unfold actions.updatePost. destruct (getProp arg "id"); [|simpl; tauto].
    match goal with
    | |- context [asyncAndCommit ?ax ?u ?n ?c ?e w] =>
        pose proof (asyncAndCommit_frame ax u n c e w) as F
    end.
    use_frame F. intuition.
  - unfold actions.deletePost.
    match goal with
    | |- context [asyncAndCommit ?ax ?u ?n ?c ?e w] =>
        pose proof (asyncAndCommit_frame ax u n c e w) as F
    end.
    use_frame F. intuition.
Qed.

(** ** Guards of the list fetches *)

Lemma asyncAndCommit_resolved_commit (axios : Network) (url name : string)
    (cfg : AxiosRequestConfig) (extra : json) (w : World) (v : json) :
  fst (asyncAndCommit axios url name cfg extra w) = Resolved v ->
  commit name (commit_payload v extra) (log_request (request_of url cfg w) w)
  = Ok (snd (asyncAndCommit axios url name cfg extra w)).
Proof.
  intros H.
  destruct (asyncAndCommit_inv axios url name cfg extra w) as [_ Hres].
  destruct (axios _ _) as [d|e].
  - destruct (commit _ _ _) as [w2|e] eqn:Hc; rewrite Hres in H |- *;
      simpl in *; congruence.
  - rewrite Hres in H. discriminate.
Qed.

(** X10.  Once a [fetchColumns] has been resolved, every later [fetchColumns] is
    resolved with [undefined] without a request, whatever page and size it
    asks for and whatever the remote side would answer: the guard only looks
    at [isLoaded], not at the arguments. *)
Theorem fetchColumns_only_once (axios : Network) (data : json) (w : World) (v : json) :
  fst (actions.fetchColumns axios data w) = Resolved v ->
  forall (axios' : Network) (data' : json),
    actions.fetchColumns axios' data' (snd (actions.fetchColumns axios data w)) =
    (Resolved JUndefined, snd (actions.fetchColumns axios data w)).
Proof.
  intros H axios' data'.
  assert (Hloaded : isLoaded (columns (state (snd (actions.fetchColumns axios data w))))
                    = true).
  { revert H. unfold actions.fetchColumns.
    destruct (isLoaded (columns (state w))) eqn:E; simpl; [now rewrite E|].
    destruct (getProp data "page"), (getProp data "size"); simpl; try discriminate.
    intros H. apply asyncAndCommit_resolved_commit in H.
    match goal with
    | |- context [snd ?r] => set (w1 := snd r) in *; clearbody w1
    end.
    rewrite (commit_registered "fetchColumns" mutations.fetchColumns) in H
      by reflexivity.
    unfold mutations.fetchColumns in H. crunch_binds. reflexivity. }
  unfold actions.fetchColumns at 1. now rewrite Hloaded.
Qed.

Lemma fetchColumns_only_once_witness :
  let w1 := snd (actions.fetchColumns serves_page page_1 (initial_world [])) in
  actions.fetchColumns serves_page page_2 w1 = (Resolved JUndefined, w1).
Proof.
  intros w1.
  apply (fetchColumns_only_once serves_page page_1 (initial_world [])
           (envelope (JObj [("list", JArr [column_c1])]))).
  reflexivity.
Defined.

(** X11.  Once a [fetchPosts] for a non-empty column id has been resolved, every
    later [fetchPosts] for that id is resolved with [undefined] without a
    request. *)
Theorem fetchPosts_only_once (axios : Network) (cid : string) (w : World) (v : json) :
  cid <> ""%string ->
  fst (actions.fetchPosts axios cid w) = Resolved v ->
  forall axios' : Network,
    actions.fetchPosts axios' cid (snd (actions.fetchPosts axios cid w)) =
    (Resolved JUndefined, snd (actions.fetchPosts axios cid w)).
Proof.
  intros Hcid H axios'.
  assert (Hloaded : includes cid
                      (loadedColumns (posts (state (snd (actions.fetchPosts axios cid w)))))
                    = true).
  { revert H. unfold actions.fetchPosts.
    destruct (includes cid (loadedColumns (posts (state w)))) eqn:E; simpl;
      [now rewrite E|].
    intros H. apply asyncAndCommit_resolved_commit in H.
    match goal with
    | |- context [snd ?r] => set (w1 := snd r) in *; clearbody w1
    end.
    rewrite (commit_registered "fetchPosts" mutations.fetchPosts) in H
      by reflexivity.
    unfold commit_payload in H. simpl truthy in H.
    apply String.eqb_neq in Hcid. rewrite Hcid in H. simpl negb in H. cbv iota in H.
    unfold mutations.fetchPosts in H.
    change (getProp (JObj [("data", v); ("extraData", JStr cid)]) "data")
      with (Ok v) in H.
    change (getProp (JObj [("data", v); ("extraData", JStr cid)]) "extraData")
      with (Ok (JStr cid)) in H.
    cbn [bind] in H. crunch_binds.
    simpl. apply includes_true. apply in_or_app. right. now left. }
  unfold actions.fetchPosts at 1. now rewrite Hloaded.
Qed.

Lemma fetchPosts_only_once_witness :
  let w1 := snd (actions.fetchPosts serves_posts "cA" (initial_world [])) in
  actions.fetchPosts serves_posts "cA" w1 = (Resolved JUndefined, w1).
Proof.
  intros w1.
  apply (fetchPosts_only_once serves_posts "cA" (initial_world [])
           (envelope (JObj [("list", JArr posts_cA)]))).
  - discriminate.
  - reflexivity.
Defined.

(** X12.  With the empty string as column id the tag of [fetchPosts] is dropped:
    [asyncAndCommit] tests it for truthiness and commits the bare response, in
    which the mutation looks for the list one level too deep.  On a response
    whose [data] has no [data] of its own (as every page of posts) the request
    is made, the action is rejected with a TypeError, and the post cache and
    [loadedColumns] stay as they were. *)
Theorem fetchPosts_empty_id (axios : Network) (w : World) (rawData : json) :
  includes "" (loadedColumns (posts (state w))) = false ->
  axios (requests w) (posts_request "" w) = Resolve rawData ->
  nullish (member (member rawData "data") "data") = true ->
  actions.fetchPosts axios "" w =
  (Rejected TypeError, log_request (posts_request "" w) w).
Proof.
  intros Hcold Hnet Hdeep.
  unfold actions.fetchPosts. rewrite Hcold. simpl negb. cbv iota.
  destruct (asyncAndCommit_inv axios "/columns//posts" "fetchPosts"
              {| method := "get"; data := JUndefined |} (JStr "") w) as [_ Hres].
  change (request_of "/columns//posts" {| method := "get"; data := JUndefined |} w)
    with (posts_request "" w) in Hres.
  rewrite Hnet in Hres.
  rewrite (commit_registered "fetchPosts" mutations.fetchPosts) in Hres
    by reflexivity.
  change (commit_payload rawData (JStr "")) with rawData in Hres.
  assert (Hthrow : mutations.fetchPosts rawData (log_request (posts_request "" w) w)
                   = Throw TypeError).
  { unfold mutations.fetchPosts.
    destruct (nullish rawData) eqn:E1.
    - now rewrite (getProp_nullish _ _ E1).
    - rewrite !(getProp_defined rawData _ E1). cbn [bind].
      destruct (nullish (member rawData "data")) eqn:E2.
      + now rewrite (getProp_nullish _ _ E2).
      + rewrite (getProp_defined _ _ E2). cbn [bind].
        now rewrite (getProp_nullish _ _ Hdeep). }
  rewrite Hthrow in Hres. exact Hres.
Qed.

Lemma fetchPosts_empty_id_witness :
  actions.fetchPosts serves_posts "" (initial_world []) =
  (Rejected TypeError, log_request (posts_request "" (initial_world [])) (initial_world [])).
Proof.
  apply (fetchPosts_empty_id serves_posts (initial_world [])
           (envelope (JObj [("list", JArr posts_cB)]))); reflexivity.
Defined.

(** ** The token on the wire *)

Lemma login_token_header (rawData : json) (w w' : World) :
  commit "login" rawData w = Ok w' ->
  token (state w') = member (member rawData "data") "token" /\
  Dict.lookup "Authorization" (headers_common w') =
    Some ("Bearer " ++ toString (member (member rawData "data") "token"))%string.
Proof.
  rewrite (commit_registered "login" mutations.login) by reflexivity.
  intros H. unfold mutations.login in H. crunch_binds. name_members.
  unfold log_commit. cbn [state token headers_common].
  rewrite lookup_set_eq. split; reflexivity.
Qed.

(** X13.  In [loginAndFetch], when [login] has been resolved, the request that
    follows is the GET of [/user/current] and it carries the [Authorization]
    header made from the token [login] has just received. *)
Theorem loginAndFetch_sends_new_token (axios : Network) (loginData : json)
    (w w1 : World) (v : json) :
  actions.login axios loginData w = (Resolved v, w1) ->
  requests (snd (actions.loginAndFetch axios loginData w)) =
    requests w1 ++
    [{| r_method := "get";
        r_url := "/user/current";
        r_data := JUndefined;
        r_authorization :=
          Some ("Bearer " ++ toString (member (member v "data") "token"))%string |}].
Proof.
  intros Hlogin. unfold actions.loginAndFetch. rewrite Hlogin.
  destruct (asyncAndCommit_inv axios "/user/current" "fetchCurrentUser"
              default_config JUndefined w1) as [Hlog _].
  fold (actions.fetchCurrentUser axios) in Hlog. rewrite Hlog.
  f_equal. f_equal. unfold request_of. simpl. f_equal.
  assert (Hc : fst (actions.login axios loginData w) = Resolved v)
    by now rewrite Hlogin.
  unfold actions.login in Hc. apply asyncAndCommit_resolved_commit in Hc.
  fold (actions.login axios loginData) in Hc. rewrite Hlogin in Hc. simpl snd in Hc.
  change (commit_payload v JUndefined) with v in Hc.
  now destruct (login_token_header _ _ _ Hc) as [_ ->].
Qed.

Lemma loginAndFetch_sends_new_token_witness :
  let w := initial_world [] in
  let w1 := snd (actions.login profile_down credentials w) in
  requests (snd (actions.loginAndFetch profile_down credentials w)) =
    requests w1 ++
    [{| r_method := "get"; r_url := "/user/current"; r_data := JUndefined;
        r_authorization := Some "Bearer t0k3n"%string |}].
Proof.
  intros w w1.
  apply (loginAndFetch_sends_new_token profile_down credentials w w1 login_response).
  reflexivity.
Defined.

(** ** Responses without data *)

(** X14.  When the remote side answers a request of [asyncAndCommit] with a body
    that has no [data] (undefined or null, or a body that is itself undefined
    or null), the mutations that read an entity, a list or a token from it
    throw before they assign anything: the action is rejected with a
    TypeError although its request was made and answered, and state, storage,
    default headers and the record of commits are as before.  ([createPost]
    and [fetchCurrentUser] do not read below the body and are not among
    them.) *)
Theorem response_without_data (axios : Network) (url name : string)
    (cfg : AxiosRequestConfig) (w : World) (rawData : json) :
  In name ["fetchColumns"; "fetchColumn"; "fetchPost"; "login";
           "updatePost"; "deletePost"]%string ->
  axios (requests w) (request_of url cfg w) = Resolve rawData ->
  nullish (member rawData "data") = true ->
  asyncAndCommit axios url name cfg JUndefined w =
    (Rejected TypeError, log_request (request_of url cfg w) w) /\
  same_store w (snd (asyncAndCommit axios url name cfg JUndefined w)).
Proof.
  intros Hname Hnet Hnull.
  assert (Hthrow : commit name rawData (log_request (request_of url cfg w) w)
                   = Throw TypeError).
  { simpl in Hname.
    repeat match type of Hname with
           | _ \/ _ => destruct Hname as [Hname|Hname]
           end; try contradiction; subst name;
      match goal with
      | |- commit ?n _ _ = _ =>
          rewrite (commit_registered n _ _ _ eq_refl)
      end;
      match goal with
      | |- bind (?f _ _) _ = _ => unfold f
      end;
      (destruct (nullish rawData) eqn:E1;
       [ now rewrite (getProp_nullish _ _ E1)
       | rewrite (getProp_defined rawData _ E1); cbn [bind];
         now rewrite (getProp_nullish _ _ Hnull) ]). }
  destruct (asyncAndCommit_inv axios url name cfg JUndefined w) as [_ Hres].
  rewrite Hnet in Hres. change (commit_payload rawData JUndefined) with rawData in Hres.
  rewrite Hthrow in Hres. rewrite Hres. split; [reflexivity|].
  apply same_store_log.
Qed.

Lemma response_without_data_witness :
  actions.deletePost serves_no_data "p1" p1_stubbed =
    (Rejected TypeError, log_request (delete_request "p1" p1_stubbed) p1_stubbed) /\
  getters.getCurrentPost (state (snd (actions.deletePost serves_no_data "p1" p1_stubbed)))
    "p1" = stub_p1.
Proof.
  destruct (response_without_data serves_no_data "/posts/p1" "deletePost"
              {| method := "delete"; data := JUndefined |} p1_stubbed
              (JObj [("code", JNum 0); ("msg", JStr "deleted")]))
    as [Hres _]; try reflexivity.
  - simpl. tauto.
  - split; [exact Hres|]. reflexivity.
Defined.

(** ** Changing and removing posts *)

Section DeleteSet.
Context {V : Type}.
Implicit Types (o : Dict.t V) (k : string) (v : V).



End DeleteSet.

(** X15.  [deletePost], when the remote side answers with an envelope around a
    server-shaped post, is resolved with that answer and removes from the
    cache the own entry of the post named by the answer (not of the id it
    was called with, should the two differ); every other entry stays. *)
Theorem deletePost_removes_answered_post (axios : Network) (id : string) (w : World)
    (rawData : json) :
  axios (requests w) (delete_request id w) = Resolve rawData ->
  is_entity (member rawData "data") = true ->
  let res := actions.deletePost axios id w in
  fst res = Resolved rawData /\
  requests (snd res) = requests w ++ [delete_request id w] /\
  Dict.lookup (entity_key (member rawData "data"))
    (posts_data (posts (state (snd res)))) = None /\
  (forall k, k <> entity_key (member rawData "data") ->
     Dict.lookup k (posts_data (posts (state (snd res)))) =
     Dict.lookup k (posts_data (posts (state w)))).
Proof.
  intros Hnet Hent.
  destruct (entity_getProps _ Hent) as [Hd Hid].
  assert (Hres : actions.deletePost axios id w =
            (Resolved rawData,
             log_commit "deletePost" rawData
               (with_state
                  (with_posts_data (Dict.delete (entity_key (member rawData "data"))))
                  (log_request (delete_request id w) w)))).
  { unfold actions.deletePost.
    apply asyncAndCommit_resolve; [exact Hnet|].
    rewrite (commit_registered "deletePost" mutations.deletePost) by reflexivity.
    change (commit_payload rawData JUndefined) with rawData.
    unfold mutations.deletePost. rewrite Hd. cbn [bind]. rewrite Hid. reflexivity. }
  intros res. subst res. rewrite Hres. simpl fst. simpl snd.
  unfold getters.getCurrentPost, get.
  cbn [state posts posts_data requests with_state with_posts_data with_posts
       log_commit log_request].
  repeat split.
  - rewrite lookup_delete. now rewrite String.eqb_refl.
  - intros k Hk. rewrite lookup_delete.
    destruct (String.eqb_spec (entity_key (member rawData "data")) k); congruence.
Qed.

Lemma deletePost_removes_answered_post_witness :
  let res := actions.deletePost serves_p1 "p1" p1_stubbed in
  fst res = Resolved (envelope (JObj full_p1)) /\
  Dict.lookup "p1" (posts_data (posts (state (snd res)))) = None.
Proof.
  destruct (deletePost_removes_answered_post serves_p1 "p1" p1_stubbed
              (envelope (JObj full_p1)) eq_refl eq_refl) as (Hr & _ & Hgone & _).
  split; [exact Hr | exact Hgone].
Defined.

(** X16.  [updatePost] destructures its argument [{ id, payload }] in its
    parameter list.  Called with undefined or null, the handler throws a
    TypeError before it returns: the dispatch throws, no promise is made, no
    request is sent and the world is untouched.  Called with an object whose
    [id] is a string, it sends [payload] in a PATCH of [/posts/id]; when the
    remote side answers with an envelope around a server-shaped post, the
    action is resolved with that answer and the post of the answer is cached
    under its id, the other entries staying as they were. *)
Theorem updatePost_upserts_answer (axios : Network) (arg : json) (w : World)
    (id : string) (rawData : json) :
  (nullish arg = true ->
     actions.updatePost axios arg w = (Thrown TypeError, w)) /\
  (member arg "id" = JStr id ->
   axios (requests w)
     {| r_method := "patch";
        r_url := ("/posts/" ++ id)%string;
        r_data := member arg "payload";
        r_authorization := Dict.lookup "Authorization" (headers_common w) |}
     = Resolve rawData ->
   is_entity (member rawData "data") = true ->
   let res := actions.updatePost axios arg w in
   fst res = Resolved rawData /\
   requests (snd res) =
     requests w ++
     [{| r_method := "patch";
         r_url := ("/posts/" ++ id)%string;
         r_data := member arg "payload";
         r_authorization := Dict.lookup "Authorization" (headers_common w) |}] /\
   getters.getCurrentPost (state (snd res)) (entity_key (member rawData "data"))
     = member rawData "data" /\
   (forall k, k <> entity_key (member rawData "data") ->
      Dict.lookup k (posts_data (posts (state (snd res)))) =
      Dict.lookup k (posts_data (posts (state w))))).
Proof.
  split.
  - intros Hn. unfold actions.updatePost. now rewrite (getProp_nullish _ _ Hn).
  - intros Hidarg Hnet Hent.
    assert (Hn : nullish arg = false)
      by (destruct arg; simpl in *; try discriminate; reflexivity).
    assert (Hreq : patch_request arg w =
              {| r_method := "patch";
                 r_url := ("/posts/" ++ id)%string;
                 r_data := member arg "payload";
                 r_authorization := Dict.lookup "Authorization" (headers_common w) |})
      by (unfold patch_request, request_of; now rewrite Hidarg).
    rewrite <- Hreq in Hnet |- *.
    destruct (entity_getProps _ Hent) as [Hd Hid].
    assert (Hres : actions.updatePost axios arg w =
              (Resolved rawData,
               log_commit "updatePost" rawData
                 (with_state
                    (with_posts_data
                       (Dict.set (entity_key (member rawData "data"))
                          (member rawData "data")))
                    (log_request (patch_request arg w) w)))).
    { unfold actions.updatePost. rewrite (getProp_defined _ _ Hn).
      apply asyncAndCommit_resolve; [exact Hnet|].
      rewrite (commit_registered "updatePost" mutations.updatePost) by reflexivity.
      change (commit_payload rawData JUndefined) with rawData.
      unfold mutations.updatePost. rewrite Hd. cbn [bind]. rewrite Hid. reflexivity. }
    intros res. subst res. rewrite Hres. simpl fst. simpl snd.
    unfold getters.getCurrentPost, get.
    cbn [state posts posts_data requests with_state with_posts_data with_posts
         log_commit log_request].
    repeat split.
    + now rewrite lookup_set_eq.
    + intros k Hk. apply lookup_set_neq. congruence.
Qed.

Lemma updatePost_upserts_answer_witness :
  let arg := JObj [("id", JStr "p1"); ("payload", new_post)] in
  let res := actions.updatePost serves_p1 arg p1_stubbed in
  fst res = Resolved (envelope (JObj full_p1)) /\
  getters.getCurrentPost (state (snd res)) "p1" = JObj full_p1.
Proof.
  intros arg.
  destruct (proj2 (updatePost_upserts_answer serves_p1 arg p1_stubbed "p1"
                     (envelope (JObj full_p1))) eq_refl eq_refl eq_refl)
    as (Hr & _ & Hnew & _).
  split; [exact Hr | exact Hnew].
Defined.



(** ** The first version of the store *)

Lemma v1_getAndCommit_async (axios : Network) (url name : string) :
  V1.getAndCommit axios url name
  = V1.asyncAndCommit axios url name {| method := "get"; data := JUndefined |}.
Proof. reflexivity. Qed.

Lemma v1_postAndCommit_async (axios : Network) (url name : string) (payload : json) :
  V1.postAndCommit axios url name payload
  = V1.asyncAndCommit axios url name {| method := "post"; data := payload |}.
Proof. reflexivity. Qed.

Lemma v1_mutation_requests (name : string) (m : V1.Mutation) (payload : json)
    (w w' : V1.World) :
  V1.mutation_named name = Some m ->
  m payload w = Ok w' ->
  V1.requests w' = V1.requests w.
Proof.
  unfold V1.mutation_named.
  repeat match goal with
         | |- context [String.eqb name ?s] => destruct (String.eqb name s)
         end;
    intros Hm; inversion Hm; subst m; clear Hm; intros H;
    match type of H with
    | ?f _ _ = _ => unfold f in H
    end;
    crunch_binds; reflexivity.
Qed.

Lemma v1_asyncAndCommit_requests (axios : Network) (url name : string)
    (cfg : AxiosRequestConfig) (w : V1.World) :
  V1.requests (snd (V1.asyncAndCommit axios url name cfg w))
  = V1.requests w ++ [V1.request_of url cfg w].
Proof.
  unfold V1.asyncAndCommit. destruct (axios _ _) as [d|e]; simpl; auto.
  unfold V1.commit. destruct (V1.mutation_named name) as [m|] eqn:Hm; simpl; auto.
  destruct (m d _) as [w2|e] eqn:Hc; simpl; auto.
  now rewrite (v1_mutation_requests _ _ _ _ _ Hm Hc).
Qed.

(** X18.  The first version has no guard: every dispatch goes to the network,
    whatever the caches hold.  Each action makes exactly one request;
    [loginAndFetch] makes two when its [login] is resolved; only an undefined
    or null argument of [fetchColumns] or [updatePost] stops the action
    before its request. *)
Theorem v1_every_dispatch_requests (axios : Network) (a : Dispatch) (w : V1.World) :
  length (V1.requests (snd (V1.dispatch axios a w)))
  = length (V1.requests w) + v1_requests_made axios a w.
Proof.
  assert (Hone : forall url name cfg,
             length (V1.requests (snd (V1.asyncAndCommit axios url name cfg w)))
             = length (V1.requests w) + 1).
  { intros. rewrite v1_asyncAndCommit_requests, length_app. reflexivity. }
  destruct a; simpl;
    unfold V1.actions.fetchColumn, V1.actions.fetchPosts, V1.actions.fetchPost,
      V1.actions.fetchCurrentUser, V1.actions.login, V1.actions.createPost,
      V1.actions.deletePost;
    rewrite ?v1_getAndCommit_async, ?v1_postAndCommit_async; auto.
  - unfold V1.actions.fetchColumns.
    destruct (nullish data0) eqn:E.
    + rewrite !(getProp_nullish _ _ E). simpl. lia.
    + rewrite !(getProp_defined _ _ E). rewrite v1_getAndCommit_async. auto.
  - unfold V1.actions.loginAndFetch, V1.actions.login.
    rewrite v1_postAndCommit_async.
    pose proof (v1_asyncAndCommit_requests axios "/user/login" "login"
                  {| method := "post"; data := loginData |} w) as H1.
    destruct (V1.asyncAndCommit axios "/user/login" "login" _ w) as [[d|e|e] w1];
      simpl in *.
    + unfold V1.actions.fetchCurrentUser. rewrite v1_getAndCommit_async.
      rewrite v1_asyncAndCommit_requests, H1, !length_app. simpl. lia.
    + rewrite H1, length_app. reflexivity.
    + rewrite H1, length_app. reflexivity.
  - unfold V1.actions.updatePost.
    destruct (nullish arg) eqn:E.
    + rewrite (getProp_nullish _ _ E). simpl. lia.
    + rewrite (getProp_defined _ _ E). auto.
Qed.

(** X19.  In the first version [fetchPosts], committed with a page of
    server-shaped posts with distinct ids, replaces the post cache: the posts
    of the page are cached under their ids and the cache has no own entry
    under any other key any more, so the posts of a column fetched before
    are gone.  The column cache is untouched. *)
Theorem v1_fetchPosts_replaces_cache (rawData : json) (l : list json) (w : V1.World) :
  member (member rawData "data") "list" = JArr l ->
  forallb is_entity l = true ->
  distinct (map entity_key l) = true ->
  exists w',
    V1.commit "fetchPosts" rawData w = Ok w' /\
    (forall p, In p l ->
       V1.getters.getCurrentPost (V1.state w') (entity_key p) = p) /\
    (forall k, ~ In k (map entity_key l) ->
       Dict.lookup k (V1.posts (V1.state w')) = None) /\
    V1.columns (V1.state w') = V1.columns (V1.state w).
Proof.
  intros Hlist Hent Hdist. apply distinct_NoDup in Hdist.
  unfold V1.commit. change (V1.mutation_named "fetchPosts")
    with (Some V1.mutations.fetchPosts).
  unfold V1.mutations.fetchPosts.
  rewrite (getProp_member rawData "data")
    by (intros E; rewrite E in Hlist; discriminate).
  cbn [bind].
  rewrite (getProp_member _ "list") by (rewrite Hlist; discriminate).
  rewrite Hlist. cbn [bind]. unfold arrToObj.
  rewrite (arrToObj_from_entities _ _ Hent). cbn [bind].
  eexists. split; [reflexivity|]. simpl.
  unfold V1.getters.getCurrentPost, get. simpl.
  repeat split.
  - intros c Hin. now rewrite lookup_filed.
  - intros k Hk. now rewrite lookup_not_filed.
Qed.

Lemma v1_fetchPosts_replaces_cache_witness :
  let wA := V1.with_state (V1.with_posts (fun _ => keyed posts_cA)) (V1.initial_world []) in
  exists w',
    V1.commit "fetchPosts" (envelope (JObj [("list", JArr posts_cB)])) wA = Ok w' /\
    V1.getters.getCurrentPost (V1.state wA) "a1" = post_of "a1" "cA" /\
    Dict.lookup "a1" (V1.posts (V1.state w')) = None /\
    V1.getters.getCurrentPost (V1.state w') "b1" = post_of "b1" "cB".
Proof.
  intros wA.
  destruct (v1_fetchPosts_replaces_cache
              (envelope (JObj [("list", JArr posts_cB)])) posts_cB wA
              eq_refl eq_refl eq_refl) as (w' & Hc & Hin & Hout & _).
  exists w'. split; [exact Hc|]. split; [reflexivity|]. split.
  - apply Hout. simpl. intros [H|[]]. discriminate.
  - apply (Hin (post_of "b1" "cB")). now left.
Defined.

(** ** The second version against the first *)

(* Mutation by mutation: the second version on a state, then forgetting the
   load tracking, is the first version on the forgotten state. *)
Lemma forget_mutation (name : string) :
  name <> "fetchPosts"%string ->
  match mutation_named name, V1.mutation_named name with
  | Some m, Some m1 =>
      forall payload w,
        m1 payload (forget w) =
        match m payload w with
        | Ok w' => Ok (forget w')
        | Throw e => Throw e
        end
  | None, None => True
  | _, _ => False
  end.
Proof.
  intros Hname. unfold mutation_named, V1.mutation_named.
  repeat match goal with
         | |- context [String.eqb name ?s] =>
             let E := fresh "E" in
             destruct (String.eqb name s) eqn:E;
             [apply String.eqb_eq in E|]
         end;
    try congruence; try exact I; intros payload w;
    match goal with
    | |- ?f1 _ _ = match ?f2 _ _ with _ => _ end => unfold f1, f2
    end;
    repeat match goal with
           | |- context [bind ?c _] =>
               match c with
               | getProp _ _ => destruct c
               | arrToObj _ => destruct c
               end; cbn [bind]; try reflexivity
           end;
    reflexivity.
Qed.

Lemma forget_commit (name : string) (payload : json) (w : World) :
  name <> "fetchPosts"%string ->
  V1.commit name payload (forget w) =
  match commit name payload w with
  | Ok w' => Ok (forget w')
  | Throw e => Throw e
  end.
Proof.
  intros Hname. pose proof (forget_mutation name Hname) as Hm.
  unfold commit, V1.commit.
  destruct (mutation_named name) as [m|], (V1.mutation_named name) as [m1|];
    try contradiction; [|reflexivity].
  rewrite Hm. destruct (m payload w); reflexivity.
Qed.

(** X20.  On every mutation but [fetchPosts], and for every payload, the second
    version does to its state what the first version does to the same state
    without the load tracking: it completes exactly when the first one does,
    and forgetting [isLoaded] and [loadedColumns] after the commit gives the
    world of the first version. *)
Theorem commit_refines_v1 (name : string) (payload : json) (w : World) :
  name <> "fetchPosts"%string ->
  V1.commit name payload (forget w) =
  match commit name payload w with
  | Ok w' => Ok (forget w')
  | Throw e => Throw e
  end.
Proof.
  intros Hname. pose proof (forget_mutation name Hname) as Hm.
  unfold commit, V1.commit.
  destruct (mutation_named name) as [m|] eqn:E2,
           (V1.mutation_named name) as [m1|] eqn:E1;
    try contradiction.
  - rewrite (Hm payload w). unfold bind.
    destruct (m payload w) as [w'|e]; reflexivity.
  - reflexivity.
Qed.

Lemma commit_refines_v1_witness :
  V1.commit "fetchColumn" (envelope column_c1) (forget (initial_world [])) =
  match commit "fetchColumn" (envelope column_c1) (initial_world []) with
  | Ok w' => Ok (forget w')
  | Throw e => Throw e
  end.
Proof.
  apply (commit_refines_v1 "fetchColumn" (envelope column_c1) (initial_world [])).
  discriminate.
Defined.

Lemma asyncAndCommit_refines_v1 (axios : Network) (url name : string)
    (cfg : AxiosRequestConfig) (w : World) :
  name <> "fetchPosts"%string ->
  V1.asyncAndCommit axios url name cfg (forget w) =
  forget_outcome (asyncAndCommit axios url name cfg JUndefined w).
Proof.
  intros Hname. unfold V1.asyncAndCommit, asyncAndCommit, forget_outcome.
  change (V1.requests (forget w)) with (requests w).
  change (V1.request_of url cfg (forget w)) with (request_of url cfg w).
  destruct (axios _ _) as [d|e]; [|reflexivity].
  change (V1.log_request (request_of url cfg w) (forget w))
    with (forget (log_request (request_of url cfg w) w)).
  rewrite (forget_commit name d _ Hname).
  simpl truthy. cbv iota.
  destruct (commit name d _); reflexivity.
Qed.

(** X21.  Apart from [fetchPosts], an action of the second version whose guard
    lets it go to the network does what the action of the first version does:
    same request, same outcome for the caller, and the same world once the
    load tracking is forgotten.  The actions without a guard ([login],
    [fetchCurrentUser], [loginAndFetch], [createPost], [updatePost],
    [deletePost]) always agree with the first version. *)
Theorem dispatch_refines_v1 (axios : Network) (a : Dispatch) (w : World) :
  is_fetchPosts a = false ->
  guard_passes a w = true ->
  V1.dispatch axios a (forget w) = forget_outcome (dispatch axios a w).
Proof.
  intros Hnot Hguard.
  destruct a; simpl in *; try discriminate.
  - unfold V1.actions.fetchColumns, actions.fetchColumns. rewrite Hguard.
    destruct (getProp data0 "page"), (getProp data0 "size"); try reflexivity.
    rewrite v1_getAndCommit_async. now apply asyncAndCommit_refines_v1.
  - unfold V1.actions.fetchColumn, actions.fetchColumn.
    unfold getters.getColumnById in Hguard. rewrite Hguard.
    rewrite v1_getAndCommit_async. now apply asyncAndCommit_refines_v1.
  - unfold V1.actions.fetchPost, actions.fetchPost.
    unfold getters.getCurrentPost in Hguard. rewrite Hguard.
    rewrite v1_getAndCommit_async. now apply asyncAndCommit_refines_v1.
  - unfold V1.actions.fetchCurrentUser, actions.fetchCurrentUser.
    rewrite v1_getAndCommit_async. now apply asyncAndCommit_refines_v1.
  - unfold V1.actions.login, actions.login.
    rewrite v1_postAndCommit_async. now apply asyncAndCommit_refines_v1.
  - unfold V1.actions.loginAndFetch, actions.loginAndFetch.
    unfold V1.actions.login, actions.login. rewrite v1_postAndCommit_async.
    rewrite asyncAndCommit_refines_v1 by discriminate.
    unfold forget_outcome at 1.
    destruct (asyncAndCommit axios "/user/login" "login" _ JUndefined w)
      as [[d|e|e] w1]; simpl; [|reflexivity|reflexivity].
    unfold V1.actions.fetchCurrentUser, actions.fetchCurrentUser.
    rewrite v1_getAndCommit_async. now apply asyncAndCommit_refines_v1.
  - unfold V1.actions.createPost, actions.createPost.
    now apply asyncAndCommit_refines_v1.
  - unfold V1.actions.updatePost, actions.updatePost.
    destruct (getProp arg "id"); [|reflexivity].
    now apply asyncAndCommit_refines_v1.
  - unfold V1.actions.deletePost, actions.deletePost.
    now apply asyncAndCommit_refines_v1.
Qed.

Lemma dispatch_refines_v1_witness :
  V1.dispatch profile_down (LoginAndFetch credentials) (forget (initial_world [])) =
  forget_outcome (dispatch profile_down (LoginAndFetch credentials) (initial_world [])).
Proof.
  apply (dispatch_refines_v1 profile_down (LoginAndFetch credentials) (initial_world []));
    reflexivity.
Defined.

(** X22.  On [fetchPosts] the two versions part: given the same response (the
    second version gets it tagged with a column id), they complete or throw
    together, but where the first version makes the batch the whole post
    cache, the second merges it: every entry of the first version's cache is
    in the second version's cache, and under every other id the second
    version still has what it had before. *)
Theorem fetchPosts_extends_v1 (rawData columnId : json) (w : World) :
  match commit "fetchPosts" (JObj [("data", rawData); ("extraData", columnId)]) w with
  | Ok w' =>
      exists v1w,
        V1.commit "fetchPosts" rawData (forget w) = Ok v1w /\
        (forall k v,
           Dict.lookup k (V1.posts (V1.state v1w)) = Some v ->
           Dict.lookup k (posts_data (posts (state w'))) = Some v) /\
        (forall k,
           Dict.lookup k (V1.posts (V1.state v1w)) = None ->
           Dict.lookup k (posts_data (posts (state w'))) =
           Dict.lookup k (posts_data (posts (state w)))) /\
        loadedColumns (posts (state w')) = loadedColumns (posts (state w)) ++ [columnId]
  | Throw e => V1.commit "fetchPosts" rawData (forget w) = Throw e
  end.
Proof.
  rewrite (commit_registered "fetchPosts" mutations.fetchPosts) by reflexivity.
  unfold V1.commit. change (V1.mutation_named "fetchPosts")
    with (Some V1.mutations.fetchPosts).
  unfold mutations.fetchPosts, V1.mutations.fetchPosts.
  change (getProp (JObj [("data", rawData); ("extraData", columnId)]) "data")
    with (Ok rawData).
  change (getProp (JObj [("data", rawData); ("extraData", columnId)]) "extraData")
    with (Ok columnId).
  cbn [bind].
  destruct (getProp rawData "data") as [d|e]; cbn [bind]; [|reflexivity].
  destruct (getProp d "list") as [l|e]; cbn [bind]; [|reflexivity].
  destruct (arrToObj l) as [o|e]; cbn [bind]; [|reflexivity].
  eexists. split; [reflexivity|]. simpl.
  repeat split.
  - intros k v Hk. rewrite lookup_merge. now rewrite Hk.
  - intros k Hk. rewrite lookup_merge. now rewrite Hk.
Qed.
